(** * The leaf-analysis page script ([script.js]): a shallow embedding

    The script validates a picked file, probes its dimensions, computes a
    green-ratio plausibility score, posts the image to the classifier under a
    timeout, and interprets the reply.  JavaScript numbers are IEEE-754
    binary64 values and are modelled by Rocq's primitive floats; strings are
    byte strings; the DOM elements the script touches are the fields of a
    record that every helper threads through. *)

From Stdlib Require Import ZArith NArith List String Ascii Bool Floats Lia.
From Stdlib Require Strings.Byte.
Import ListNotations.

Open Scope string_scope.

#[local] Set Warnings "-inexact-float,-register-all".

(* ================================================================= *)
(** * Part I: definitions *)
(* ================================================================= *)

(** ** JavaScript values *)

(** The values [JSON.parse] can produce, plus [undefined].  An object keeps
    its properties in source order; a later duplicate key shadows an earlier
    one. *)
Inductive JsValue : Type :=
| VUndefined
| VNull
| VBool (b : bool)
| VNum (x : float)
| VStr (s : string)
| VArr (items : list JsValue)
| VObj (props : list (string * JsValue)).

Inductive JsError : Type :=
| TypeError
| SyntaxError
| AbortError.

(** [err.name] *)
Definition error_name (e : JsError) : string :=
  match e with
  | TypeError => "TypeError"
  | SyntaxError => "SyntaxError"
  | AbortError => "AbortError"
  end.

(** The outcome of an operation that can fail: a promise settles as resolved
    or rejected; an evaluation yields a value or throws. *)
Inductive Settled (A : Type) : Type :=
| Resolved (a : A)
| Rejected (e : JsError).
Arguments Resolved {A} a.
Arguments Rejected {A} e.

Definition is_nan (x : float) : bool := negb (PrimFloat.eqb x x).

(** ToBoolean: [undefined], [null], [false], [+0], [-0], [NaN] and the empty
    string are falsy; every other value, objects and arrays included, is
    truthy. *)
Definition truthy (v : JsValue) : bool :=
  match v with
  | VUndefined | VNull => false
  | VBool b => b
  | VNum x => negb (PrimFloat.eqb x 0%float || is_nan x)
  | VStr s => negb (String.eqb s "")
  | VArr _ | VObj _ => true
  end.

(** [a || b] on values: the first operand when it is truthy. *)
Definition js_or (a b : JsValue) : JsValue := if truthy a then a else b.

Definition typeof (v : JsValue) : string :=
  match v with
  | VUndefined => "undefined"
  | VNull => "object"
  | VBool _ => "boolean"
  | VNum _ => "number"
  | VStr _ => "string"
  | VArr _ | VObj _ => "object"
  end.

(** The binding of [k] that wins in an object literal: the last one. *)
Fixpoint own_property (props : list (string * JsValue)) (k : string)
  : option JsValue :=
  match props with
  | [] => None
  | (k', v) :: rest =>
      match own_property rest k with
      | Some w => Some w
      | None => if String.eqb k' k then Some v else None
      end
  end.

(** [v.k] for a key that no built-in prototype defines (the script reads
    [class], [confidence] and [detail]): a property read on [null] or
    [undefined] throws a TypeError, on an object it finds the own property or
    yields [undefined], on any other value it yields [undefined]. *)
Definition get_property (v : JsValue) (k : string) : Settled JsValue :=
  match v with
  | VUndefined | VNull => Rejected TypeError
  | VObj props =>
      match own_property props k with
      | Some w => Resolved w
      | None => Resolved VUndefined
      end
  | _ => Resolved VUndefined
  end.

(** ** Text shown by a DOM node

    Assigning a value to [textContent] converts it with ToString and stores
    the string.  A string is stored as it is.  The string forms of other
    values and the [toFixed(1)] rendering of a number are kept symbolic:
    [Stringified v] is the string form of a value [v] that has one. *)
Inductive DomText : Type :=
| Text (s : string)
| Stringified (v : JsValue)
| PercentFixed1 (x : float).

(** Whether ToString completes on a value [JSON.parse] can produce.  It
    throws a TypeError on an object with an own [toString] property: the
    property shadows [Object.prototype.toString], no parsed value is
    callable, and [valueOf] yields no primitive.  An array is joined, which
    converts its elements in turn.  Every other value has a string form. *)
Fixpoint text_convertible (v : JsValue) : bool :=
  match v with
  | VObj props =>
      match own_property props "toString" with
      | Some _ => false
      | None => true
      end
  | VArr items => forallb text_convertible items
  | _ => true
  end.

(** The assignment [node.textContent = v]: the text stored, or the
    TypeError of the conversion.  [null] and [undefined] store the empty
    string. *)
Definition dom_text (v : JsValue) : Settled DomText :=
  if text_convertible v then
    Resolved
      match v with
      | VStr s => Text s
      | VNull | VUndefined => Text ""
      | _ => Stringified v
      end
  else Rejected TypeError.

(** ** Files and decoded images *)

(** What the browser's decoder makes of a file's payload: the natural size
    and the RGBA bytes that drawing it on a 64x64 canvas and reading the
    canvas back ([getImageData]) yields. *)
Record Image : Type := mkImage {
  naturalWidth : N;
  naturalHeight : N;
  sampled : list Byte.byte
}.

(** A picked file: declared mime type, size in bytes, and the outcome of
    decoding its payload as an image ([None]: the [onerror] path). *)
Record File : Type := mkFile {
  type : string;
  size : N;
  decoded : option Image
}.

(** ** Configuration *)

Definition API_URL : string := "https://b-aackend.onrender.com/predict".
Definition MAX_SIZE : N := 5 * 1024 * 1024.
Definition MIN_DIM : N := 64.
Definition CONFIDENCE_THRESHOLD : float := 0.70%float.
Definition GREEN_RATIO_THRESHOLD : float := 0.18%float.
Definition EPSILON : float := 1e-9%float.
Definition DEFAULT_TIMEOUT : N := 15000.
Definition ANALYZE_TIMEOUT : N := 20000.

(** ** Validation *)

Definition MSG_NO_FILE : string := "No file selected.".
Definition MSG_NOT_IMAGE : string := "Please choose an image file (jpg, png).".
Definition MSG_TOO_LARGE : string := "File is too large. Max 5MB.".

(** [validateFile]: [None] is the script's [null] (the file passes);
    [Some msg] is the message of the first rule that fails. *)
Definition validateFile (file : option File) : option string :=
  match file with
  | None => Some MSG_NO_FILE
  | Some f =>
      if negb (String.prefix "image/" (type f)) then Some MSG_NOT_IMAGE
      else if (MAX_SIZE <? size f)%N then Some MSG_TOO_LARGE
      else None
  end.

(** The error kinds of the validator, read off the message it returns. *)
Inductive ValidationError : Type := MissingFile | InvalidType | TooLarge.

Definition validation_message (e : ValidationError) : string :=
  match e with
  | MissingFile => MSG_NO_FILE
  | InvalidType => MSG_NOT_IMAGE
  | TooLarge => MSG_TOO_LARGE
  end.

(** ** Dimension probe *)

(** [readImageDimensions]: resolves with the natural size on [onload],
    rejects on [onerror]. *)
Definition readImageDimensions (file : File) : Settled (N * N) :=
  match decoded file with
  | Some img => Resolved (naturalWidth img, naturalHeight img)
  | None => Rejected TypeError
  end.

(** ** Green-ratio heuristic *)

(** A byte of the pixel buffer as a number. *)
Definition byte_num (b : Byte.byte) : float :=
  PrimFloat.of_uint63 (Uint63.of_Z (Z.of_N (Byte.to_N b))).

(** The loop [for (i = 0; i < data.length; i += 4)] over the RGBA buffer,
    with the accumulators [gSum] and [total].  Each round reads [data[i]],
    [data[i+1]], [data[i+2]] and skips the alpha byte.  A read past the end
    of the buffer yields [undefined], which turns the sums it enters into
    NaN. *)
Fixpoint green_loop (data : list Byte.byte) (gSum total : float)
  : float * float :=
  match data with
  | [] => (gSum, total)
  | r :: g :: b :: _ :: rest =>
      green_loop rest
        (gSum + byte_num g)%float
        (total + (byte_num r + byte_num g + byte_num b) / 3)%float
  | [r; g; b] =>
      ((gSum + byte_num g)%float,
       (total + (byte_num r + byte_num g + byte_num b) / 3)%float)
  | [r; g] =>
      ((gSum + byte_num g)%float,
       (total + (byte_num r + byte_num g + nan) / 3)%float)
  | [r] =>
      ((gSum + nan)%float, (total + (byte_num r + nan + nan) / 3)%float)
  end.

(** The body of the [onload] callback once the buffer is read. *)
Definition green_ratio (data : list Byte.byte) : float :=
  let '(gSum, total) := green_loop data 0%float 0%float in
  (gSum / (total + EPSILON))%float.

(** [greenRatioHeuristic]: the promise never rejects; a decode failure
    resolves with 0. *)
Definition greenRatioHeuristic (file : File) : float :=
  match decoded file with
  | Some img => green_ratio (sampled img)
  | None => 0%float
  end.

(** ** [JSON.parse]

    A reference reader for JSON text (ECMA-404), with the results
    [JSON.parse] gives: [None] stands for the SyntaxError it throws.  Number
    literals are rounded to the nearest binary64 value, ties to even, by the
    Standard Library's executable IEEE-754 specification; string escapes are
    decoded to UTF-8 bytes. *)

Definition dquote : ascii := "034"%char.

Definition is_ws (c : ascii) : bool :=
  match c with
  | " "%char | "009"%char | "010"%char | "013"%char => true
  | _ => false
  end.

Fixpoint skip_ws (s : string) : string :=
  match s with
  | String c r => if is_ws c then skip_ws r else s
  | EmptyString => s
  end.

Definition digit_of (c : ascii) : option Z :=
  let n := N_of_ascii c in
  if ((48 <=? n) && (n <=? 57))%N then Some (Z.of_N (n - 48)) else None.

Definition hex_of (c : ascii) : option N :=
  let n := N_of_ascii c in
  if ((48 <=? n) && (n <=? 57))%N then Some (n - 48)%N
  else if ((65 <=? n) && (n <=? 70))%N then Some (n - 55)%N
  else if ((97 <=? n) && (n <=? 102))%N then Some (n - 87)%N
  else None.

(** Reads a run of decimal digits onto [acc]; returns the number read, how
    many digits it had, and the rest of the text. *)
Fixpoint read_digits (s : string) (acc count : Z) : Z * Z * string :=
  match s with
  | String c r =>
      match digit_of c with
      | Some d => read_digits r (acc * 10 + d) (count + 1)
      | None => (acc, count, s)
      end
  | EmptyString => (acc, count, s)
  end.

(** The binary64 value nearest to [(-1)^neg * m * 10^e10], for [m >= 0]. *)
Definition decimal_to_double (neg : bool) (m e10 : Z) : float :=
  match m with
  | Z.pos p =>
      if (400 <? e10)%Z then (if neg then neg_infinity else infinity)
      else if (e10 <? - (401 + Z.log2 m))%Z then (if neg then neg_zero else zero)
      else if (0 <=? e10)%Z then
        SF2Prim (binary_normalize prec emax
                   ((if neg then - m else m) * 10 ^ e10)%Z 0%Z false)
      else
        SF2Prim (SFdiv prec emax
                   (S754_finite neg p 0%Z)
                   (S754_finite false (Z.to_pos (10 ^ (- e10))) 0%Z))
  | _ => if neg then neg_zero else zero
  end.

Definition strip_sign (s : string) : bool * string :=
  match s with
  | String "-"%char r => (true, r)
  | _ => (false, s)
  end.

Definition strip_exp_sign (s : string) : bool * string :=
  match s with
  | String "-"%char r => (true, r)
  | String "+"%char r => (false, r)
  | _ => (false, s)
  end.

(** number = [-] int [frac] [exp] *)
Definition parse_number (s : string) : option (float * string) :=
  let '(neg, s1) := strip_sign s in
  match s1 with
  | String c r =>
      match digit_of c with
      | None => None
      | Some d =>
          let '(ip, _, s2) :=
            if (d =? 0)%Z then (0%Z, 1%Z, r) else read_digits s1 0 0 in
          let frac :=
            match s2 with
            | String "."%char r2 =>
                let '(m, n, s3) := read_digits r2 ip 0 in
                if (n =? 0)%Z then None else Some (m, n, s3)
            | _ => Some (ip, 0%Z, s2)
            end in
          match frac with
          | None => None
          | Some (m, fd, s3) =>
              let expo :=
                match s3 with
                | String ("e" | "E")%char r3 =>
                    let '(eneg, r4) := strip_exp_sign r3 in
                    let '(e, n, s4) := read_digits r4 0 0 in
                    if (n =? 0)%Z then None
                    else Some ((if eneg then - e else e)%Z, s4)
                | _ => Some (0%Z, s3)
                end in
              match expo with
              | None => None
              | Some (e, s4) => Some (decimal_to_double neg m (e - fd), s4)
              end
          end
      end
  | EmptyString => None
  end.

(** Four hexadecimal digits of a [\u] escape. *)
Definition read_hex4 (s : string) : option (N * string) :=
  match s with
  | String a (String b (String c (String d r))) =>
      match hex_of a, hex_of b, hex_of c, hex_of d with
      | Some x, Some y, Some z, Some w =>
          Some (((x * 16 + y) * 16 + z) * 16 + w, r)%N
      | _, _, _, _ => None
      end
  | _ => None
  end.

Definition byte_string (n : N) : string := String (ascii_of_N n) EmptyString.

(** UTF-8 bytes of a code point. *)
Definition utf8 (n : N) : string :=
  (if n <? 128 then byte_string n
   else if n <? 2048 then
     byte_string (192 + n / 64) ++ byte_string (128 + n mod 64)
   else if n <? 65536 then
     byte_string (224 + n / 4096) ++ byte_string (128 + (n / 64) mod 64)
       ++ byte_string (128 + n mod 64)
   else
     byte_string (240 + n / 262144) ++ byte_string (128 + (n / 4096) mod 64)
       ++ byte_string (128 + (n / 64) mod 64)
       ++ byte_string (128 + n mod 64))%N.

Definition is_high_surrogate (n : N) : bool := ((55296 <=? n) && (n <=? 56319))%N.
Definition is_low_surrogate (n : N) : bool := ((56320 <=? n) && (n <=? 57343))%N.

(** A [\uXXXX] escape, joined with a following low surrogate when it is a
    high surrogate. *)
Definition read_unicode_escape (s : string) : option (string * string) :=
  match read_hex4 s with
  | None => None
  | Some (hi, r) =>
      let single := Some (utf8 hi, r) in
      if is_high_surrogate hi then
        match r with
        | String "\"%char (String "u"%char r2) =>
            match read_hex4 r2 with
            | Some (lo, r3) =>
                if is_low_surrogate lo then
                  Some (utf8 (65536 + (hi - 55296) * 1024 + (lo - 56320))%N, r3)
                else single
            | None => single
            end
        | _ => single
        end
      else single
  end.

Definition simple_escape (c : ascii) : option ascii :=
  match c with
  | "034"%char => Some "034"%char
  | "\"%char => Some "\"%char
  | "/"%char => Some "/"%char
  | "b"%char => Some "008"%char
  | "f"%char => Some "012"%char
  | "n"%char => Some "010"%char
  | "r"%char => Some "013"%char
  | "t"%char => Some "009"%char
  | _ => None
  end.

(** The characters of a string literal after its opening quote, up to and
    including the closing quote. *)
Fixpoint parse_string_body (fuel : nat) (s : string) : option (string * string) :=
  match fuel with
  | O => None
  | S fuel' =>
      match s with
      | EmptyString => None
      | String c r =>
          if Ascii.eqb c dquote then Some (EmptyString, r)
          else if Ascii.eqb c "\"%char then
            match r with
            | EmptyString => None
            | String e r2 =>
                match simple_escape e with
                | Some ch =>
                    match parse_string_body fuel' r2 with
                    | Some (t, rest) => Some (String ch t, rest)
                    | None => None
                    end
                | None =>
                    if Ascii.eqb e "u"%char then
                      match read_unicode_escape r2 with
                      | Some (bytes, r3) =>
                          match parse_string_body fuel' r3 with
                          | Some (t, rest) => Some (bytes ++ t, rest)
                          | None => None
                          end
                      | None => None
                      end
                    else None
                end
            end
          else if (N_of_ascii c <? 32)%N then None
          else
            match parse_string_body fuel' r with
            | Some (t, rest) => Some (String c t, rest)
            | None => None
            end
      end
  end.

Definition strip_prefix (p s : string) : option string :=
  if String.prefix p s
  then Some (String.substring (String.length p) (String.length s - String.length p) s)
  else None.

(** value, elements of an array after [[], members of an object after [{]. *)
Fixpoint parse_value (fuel : nat) (s : string) : option (JsValue * string) :=
  match fuel with
  | O => None
  | S fuel' =>
      match skip_ws s with
      | EmptyString => None
      | String c r as s0 =>
          if Ascii.eqb c dquote then
            match parse_string_body (String.length r) r with
            | Some (t, rest) => Some (VStr t, rest)
            | None => None
            end
          else if Ascii.eqb c "["%char then
            match skip_ws r with
            | String "]"%char rest => Some (VArr [], rest)
            | _ =>
                match parse_elements fuel' r [] with
                | Some (items, rest) => Some (VArr items, rest)
                | None => None
                end
            end
          else if Ascii.eqb c "{"%char then
            match skip_ws r with
            | String "}"%char rest => Some (VObj [], rest)
            | _ =>
                match parse_members fuel' r [] with
                | Some (props, rest) => Some (VObj props, rest)
                | None => None
                end
            end
          else
            match strip_prefix "true" s0, strip_prefix "false" s0,
                  strip_prefix "null" s0 with
            | Some rest, _, _ => Some (VBool true, rest)
            | _, Some rest, _ => Some (VBool false, rest)
            | _, _, Some rest => Some (VNull, rest)
            | _, _, _ =>
                match parse_number s0 with
                | Some (x, rest) => Some (VNum x, rest)
                | None => None
                end
            end
      end
  end
with parse_elements (fuel : nat) (s : string) (acc : list JsValue)
  : option (list JsValue * string) :=
  match fuel with
  | O => None
  | S fuel' =>
      match parse_value fuel' s with
      | None => None
      | Some (v, rest) =>
          match skip_ws rest with
          | String ","%char rest' => parse_elements fuel' rest' (acc ++ [v])%list
          | String "]"%char rest' => Some ((acc ++ [v])%list, rest')
          | _ => None
          end
      end
  end
with parse_members (fuel : nat) (s : string) (acc : list (string * JsValue))
  : option (list (string * JsValue) * string) :=
  match fuel with
  | O => None
  | S fuel' =>
      match skip_ws s with
      | String c r =>
          if Ascii.eqb c dquote then
            match parse_string_body (String.length r) r with
            | None => None
            | Some (k, rest) =>
                match skip_ws rest with
                | String ":"%char rest1 =>
                    match parse_value fuel' rest1 with
                    | None => None
                    | Some (v, rest2) =>
                        match skip_ws rest2 with
                        | String ","%char rest3 =>
                            parse_members fuel' rest3 (acc ++ [(k, v)])%list
                        | String "}"%char rest3 => Some ((acc ++ [(k, v)])%list, rest3)
                        | _ => None
                        end
                    end
                | _ => None
                end
            end
          else None
      | EmptyString => None
      end
  end.

(** [JSON.parse(text)]: one value between optional white space. *)
Definition JSON_parse (text : string) : option JsValue :=
  match parse_value (2 * String.length text + 2) text with
  | Some (v, rest) =>
      match skip_ws rest with
      | EmptyString => Some v
      | _ => None
      end
  | None => None
  end.

(** ** The page

    The DOM state the script reads and writes, one field per property it
    touches.  [status_history] is a ghost field: every [setStatus] call, the
    most recent first, so that a message that a later call in the same turn
    of the event loop overwrites is still on record. *)
Record UI : Type := mkUI {
  fileInput_file : option File;       (* fileInput.files[0] *)
  previewImg_src : option File;       (* the file behind previewImg.src *)
  previewRow_hidden : bool;
  analyzeBtn_disabled : bool;
  analyzeBtn2_disabled : bool;
  initialActions_hidden : bool;
  statusEl_text : DomText;
  statusEl_color : string;
  spinner_hidden : bool;
  resultEl_hidden : bool;
  resultClass_text : DomText;
  resultConfidence_text : DomText;
  explain_hidden : bool;
  status_history : list (DomText * bool)
}.

Definition COLOR_ERROR : string := "#c23b3b".
Definition DASH : string := "—".

(** The two assignments of [setStatus] once the message is converted. *)
Definition write_status (shown : DomText) (isError : bool) (ui : UI) : UI :=
  {| fileInput_file := fileInput_file ui;
     previewImg_src := previewImg_src ui;
     previewRow_hidden := previewRow_hidden ui;
     analyzeBtn_disabled := analyzeBtn_disabled ui;
     analyzeBtn2_disabled := analyzeBtn2_disabled ui;
     initialActions_hidden := initialActions_hidden ui;
     statusEl_text := shown;
     statusEl_color := if isError then COLOR_ERROR else "";
     spinner_hidden := spinner_hidden ui;
     resultEl_hidden := resultEl_hidden ui;
     resultClass_text := resultClass_text ui;
     resultConfidence_text := resultConfidence_text ui;
     explain_hidden := explain_hidden ui;
     status_history := (shown, isError) :: status_history ui |}.

(** [setStatus(msg, isError)]: [statusEl.textContent = msg || ""] converts
    the message and can throw, in which case nothing is written. *)
Definition setStatus (msg : JsValue) (isError : bool) (ui : UI) : Settled UI :=
  match dom_text (js_or msg (VStr "")) with
  | Resolved shown => Resolved (write_status shown isError ui)
  | Rejected e => Rejected e
  end.

(** [setStatus] called with a string, as every call but the one of line 184
    is: [msg || ""] is the string itself and the call cannot throw. *)
Definition setStatusText (msg : string) (isError : bool) (ui : UI) : UI :=
  write_status (Text msg) isError ui.

(** [showSpinner(show)] *)
Definition showSpinner (show : bool) (ui : UI) : UI :=
  {| fileInput_file := fileInput_file ui;
     previewImg_src := previewImg_src ui;
     previewRow_hidden := previewRow_hidden ui;
     analyzeBtn_disabled := analyzeBtn_disabled ui;
     analyzeBtn2_disabled := analyzeBtn2_disabled ui;
     initialActions_hidden := initialActions_hidden ui;
     statusEl_text := statusEl_text ui;
     statusEl_color := statusEl_color ui;
     spinner_hidden := negb show;
     resultEl_hidden := resultEl_hidden ui;
     resultClass_text := resultClass_text ui;
     resultConfidence_text := resultConfidence_text ui;
     explain_hidden := explain_hidden ui;
     status_history := status_history ui |}.

(** [resetResult()] *)
Definition resetResult (ui : UI) : UI :=
  {| fileInput_file := fileInput_file ui;
     previewImg_src := previewImg_src ui;
     previewRow_hidden := previewRow_hidden ui;
     analyzeBtn_disabled := analyzeBtn_disabled ui;
     analyzeBtn2_disabled := analyzeBtn2_disabled ui;
     initialActions_hidden := initialActions_hidden ui;
     statusEl_text := statusEl_text ui;
     statusEl_color := statusEl_color ui;
     spinner_hidden := spinner_hidden ui;
     resultEl_hidden := true;
     resultClass_text := Text DASH;
     resultConfidence_text := Text DASH;
     explain_hidden := true;
     status_history := status_history ui |}.

(** [explain.hidden = false] *)
Definition showExplain (ui : UI) : UI :=
  {| fileInput_file := fileInput_file ui;
     previewImg_src := previewImg_src ui;
     previewRow_hidden := previewRow_hidden ui;
     analyzeBtn_disabled := analyzeBtn_disabled ui;
     analyzeBtn2_disabled := analyzeBtn2_disabled ui;
     initialActions_hidden := initialActions_hidden ui;
     statusEl_text := statusEl_text ui;
     statusEl_color := statusEl_color ui;
     spinner_hidden := spinner_hidden ui;
     resultEl_hidden := resultEl_hidden ui;
     resultClass_text := resultClass_text ui;
     resultConfidence_text := resultConfidence_text ui;
     explain_hidden := false;
     status_history := status_history ui |}.

(** The three assignments that display a result, once the class is
    converted: [resultClass.textContent = data.class],
    [resultConfidence.textContent = `${(confidence * 100).toFixed(1)}%`],
    [resultEl.hidden = false]. *)
Definition showResult (cls : DomText) (confidence : float) (ui : UI) : UI :=
  {| fileInput_file := fileInput_file ui;
     previewImg_src := previewImg_src ui;
     previewRow_hidden := previewRow_hidden ui;
     analyzeBtn_disabled := analyzeBtn_disabled ui;
     analyzeBtn2_disabled := analyzeBtn2_disabled ui;
     initialActions_hidden := initialActions_hidden ui;
     statusEl_text := statusEl_text ui;
     statusEl_color := statusEl_color ui;
     spinner_hidden := spinner_hidden ui;
     resultEl_hidden := false;
     resultClass_text := cls;
     resultConfidence_text := PercentFixed1 (confidence * 100)%float;
     explain_hidden := explain_hidden ui;
     status_history := status_history ui |}.

(** The browser stores the user's pick in [fileInput.files] before it fires
    [change]; [fileInput.value = ""] empties it again. *)
Definition setFile (file : option File) (ui : UI) : UI :=
  {| fileInput_file := file;
     previewImg_src := previewImg_src ui;
     previewRow_hidden := previewRow_hidden ui;
     analyzeBtn_disabled := analyzeBtn_disabled ui;
     analyzeBtn2_disabled := analyzeBtn2_disabled ui;
     initialActions_hidden := initialActions_hidden ui;
     statusEl_text := statusEl_text ui;
     statusEl_color := statusEl_color ui;
     spinner_hidden := spinner_hidden ui;
     resultEl_hidden := resultEl_hidden ui;
     resultClass_text := resultClass_text ui;
     resultConfidence_text := resultConfidence_text ui;
     explain_hidden := explain_hidden ui;
     status_history := status_history ui |}.

Definition clearFile (ui : UI) : UI := setFile None ui.

(** The preview block of the [change] handler: [previewImg.src], the preview
    row, both analyze buttons and the initial actions. *)
Definition showPreview (file : File) (ui : UI) : UI :=
  {| fileInput_file := fileInput_file ui;
     previewImg_src := Some file;
     previewRow_hidden := false;
     analyzeBtn_disabled := false;
     analyzeBtn2_disabled := false;
     initialActions_hidden := true;
     statusEl_text := statusEl_text ui;
     statusEl_color := statusEl_color ui;
     spinner_hidden := spinner_hidden ui;
     resultEl_hidden := resultEl_hidden ui;
     resultClass_text := resultClass_text ui;
     resultConfidence_text := resultConfidence_text ui;
     explain_hidden := explain_hidden ui;
     status_history := status_history ui |}.

(** ** Bounded request *)

(** A response as the script sees it: the status line, and what reading the
    body delivers ([None]: the read fails). *)
Record Response : Type := mkResponse {
  status : N;
  body : option string
}.

(** [resp.ok] *)
Definition ok (resp : Response) : bool :=
  ((200 <=? status resp) && (status resp <=? 299))%N.

(** [resp.text()] *)
Definition resp_text (resp : Response) : Settled string :=
  match body resp with
  | Some s => Resolved s
  | None => Rejected TypeError
  end.

(** [resp.json()] *)
Definition resp_json (resp : Response) : Settled JsValue :=
  match body resp with
  | None => Rejected TypeError
  | Some s =>
      match JSON_parse s with
      | Some v => Resolved v
      | None => Rejected SyntaxError
      end
  end.

(** The [options] argument of [fetchWithTimeout]; [opt_body] lists the parts
    of the multipart form, [opt_timeout = None] is an absent [timeout]. *)
Record Options : Type := mkOptions {
  opt_method : string;
  opt_body : list (string * File);
  opt_timeout : option N
}.

Record Request : Type := mkRequest {
  req_resource : string;
  req_method : string;
  req_body : list (string * File)
}.

(** What the event loop can deliver to a pending call: the timer set by
    [setTimeout] comes due, the response arrives, or the transfer fails. *)
Inductive LoopEvent : Type :=
| TimerFires
| ResponseArrives (resp : Response)
| TransferFails.

(** One call of [fetchWithTimeout]: the requests handed to [fetch], the
    pending timer with its delay, the abort signal, whether the transfer is
    still open, and every settlement handed to the awaiting caller, oldest
    first. *)
Record FetchCall : Type := mkFetchCall {
  requests : list Request;
  timer : option N;
  signal_aborted : bool;
  in_flight : bool;
  settlements : list (Settled Response)
}.

(** The synchronous part of [fetchWithTimeout]: destructure [timeout] with
    its default, arm the timer, call [fetch] once with the signal. *)
Definition fetchWithTimeout (resource : string) (options : Options) : FetchCall :=
  let timeout :=
    match opt_timeout options with
    | Some t => t
    | None => DEFAULT_TIMEOUT
    end in
  {| requests := [ {| req_resource := resource;
                      req_method := opt_method options;
                      req_body := opt_body options |} ];
     timer := Some timeout;
     signal_aborted := false;
     in_flight := true;
     settlements := [] |}.

(** One delivery.  The timer callback is [controller.abort()]: an open
    transfer is closed and [fetch] rejects with an AbortError, which the
    [catch] block rethrows after [clearTimeout].  A response or a failure
    reaches the call only while the transfer is open, and clears the timer. *)
Definition deliver (ev : LoopEvent) (c : FetchCall) : FetchCall :=
  match ev with
  | TimerFires =>
      match timer c with
      | None => c
      | Some _ =>
          {| requests := requests c;
             timer := None;
             signal_aborted := true;
             in_flight := false;
             settlements :=
               if in_flight c
               then (settlements c ++ [Rejected AbortError])%list
               else settlements c |}
      end
  | ResponseArrives resp =>
      if in_flight c then
        {| requests := requests c;
           timer := None;
           signal_aborted := signal_aborted c;
           in_flight := false;
           settlements := (settlements c ++ [Resolved resp])%list |}
      else c
  | TransferFails =>
      if in_flight c then
        {| requests := requests c;
           timer := None;
           signal_aborted := signal_aborted c;
           in_flight := false;
           settlements := (settlements c ++ [Rejected TypeError])%list |}
      else c
  end.

Definition run_fetch (events : list LoopEvent) (c : FetchCall) : FetchCall :=
  fold_left (fun c ev => deliver ev c) events c.

(** ** Response interpretation *)

Definition MSG_CHECKING : string := "Checking image...".
Definition MSG_NOT_LEAF : string :=
  "Image doesn't look like a leaf — analysis may be inaccurate.".
Definition MSG_ANALYZING : string := "Analyzing image — please wait...".
Definition MSG_SERVER_ERROR : string := "Server error".
Definition MSG_UNEXPECTED : string := "Unexpected server response.".
Definition MSG_LOW_CONFIDENCE : string :=
  "Model confidence is low — image might not be a potato leaf or is unclear.".
Definition MSG_TIMEOUT : string := "Request timed out. Try again later.".
Definition MSG_NETWORK : string :=
  "Network error. Check your connection or try again.".
Definition MSG_TOO_SMALL : string :=
  "Image resolution is too small. Use a clearer picture.".
Definition MSG_UNREADABLE : string := "Couldn't read image. Try another file.".

Inductive Trust : Type := Confident | LowConfidence.

(** The way an analyze attempt ends, named after the exit taken in
    [onAnalyzeClick]. *)
Inductive Exit : Type :=
| ExitInvalid             (* validateFile returned a message *)
| ExitPending             (* the request never settled *)
| ExitServerError         (* !resp.ok *)
| ExitMalformed           (* "Unexpected server response." *)
| ExitResult (t : Trust)  (* the result is displayed *)
| ExitTimeout             (* catch: AbortError *)
| ExitNetworkFailure.     (* catch: any other error *)

(** How the [try] block completes: by [return] or by falling off its end,
    or by a throw that carries the page as it was at the throw. *)
Inductive Completion : Type :=
| Return (ui : UI) (x : Exit)
| Throw (ui : UI) (e : JsError).

(** The inner [try]/[catch] of the [!resp.ok] branch.  The [try] part can
    throw in [JSON.parse], in the read of [json.detail], and in [setStatus]
    when the message does not convert; the [catch] part shows
    [txt || "Server error"]. *)
Definition report_server_error (txt : string) (ui : UI) : UI :=
  let caught :=
    setStatusText (if String.eqb txt "" then MSG_SERVER_ERROR else txt) true ui in
  match JSON_parse txt with
  | None => caught
  | Some json =>
      match get_property json "detail" with
      | Rejected _ => caught
      | Resolved detail =>
          match setStatus (js_or detail (VStr txt)) true ui with
          | Resolved ui' => ui'
          | Rejected _ => caught
          end
      end
  end.

(** Lines 208-210: the display of an accepted reply.  The assignment of
    [data.class] to [textContent] throws when the class does not convert,
    before anything is displayed. *)
Definition display_result (cls : JsValue) (c : float) (t : Trust) (ui : UI)
  : Completion :=
  match dom_text cls with
  | Resolved shown => Return (showResult shown c ui) (ExitResult t)
  | Rejected e => Throw ui e
  end.

(** The [try] block from the point where [fetchWithTimeout] has resolved. *)
Definition interpret (resp : Response) (ui : UI) : Completion :=
  if negb (ok resp) then
    let txt :=
      match resp_text resp with
      | Resolved s => s
      | Rejected _ => MSG_SERVER_ERROR
      end in
    let ui := report_server_error txt ui in
    Return (showSpinner false ui) ExitServerError
  else
    match resp_json resp with
    | Rejected e => Throw ui e
    | Resolved data =>
        let ui := showSpinner false ui in
        match get_property data "class", get_property data "confidence" with
        | Rejected e, _ => Throw ui e
        | Resolved _, Rejected e => Throw ui e
        | Resolved cls, Resolved confidence =>
            if negb (truthy cls)
               || negb (String.eqb (typeof confidence) "number")
            then Return (setStatusText MSG_UNEXPECTED true ui) ExitMalformed
            else
              match confidence with
              | VNum c =>
                  if (c <? CONFIDENCE_THRESHOLD)%float then
                    let ui := setStatusText MSG_LOW_CONFIDENCE true ui in
                    let ui := showExplain ui in
                    display_result cls c LowConfidence ui
                  else
                    let ui := setStatusText "" false ui in
                    display_result cls c Confident ui
              | _ =>
                  (* not reached: only a [VNum] has typeof "number" *)
                  Return (setStatusText MSG_UNEXPECTED true ui) ExitMalformed
              end
        end
    end.

(** The page on which an accepted reply is displayed: the status line is
    written first (lines 201-206). *)
Definition page_before_result (c : float) (ui : UI) : UI :=
  if (c <? CONFIDENCE_THRESHOLD)%float
  then showExplain (setStatusText MSG_LOW_CONFIDENCE true (showSpinner false ui))
  else setStatusText "" false (showSpinner false ui).

Definition trust_of (c : float) : Trust :=
  if (c <? CONFIDENCE_THRESHOLD)%float then LowConfidence else Confident.

(** The outer [catch] block. *)
Definition on_failure (err : JsError) (ui : UI) : UI * Exit :=
  let ui := showSpinner false ui in
  if String.eqb (error_name err) "AbortError"
  then (setStatusText MSG_TIMEOUT true ui, ExitTimeout)
  else (setStatusText MSG_NETWORK true ui, ExitNetworkFailure).

(** The [try]/[catch] statement once the awaited call has settled. *)
Definition analyze_settle (outcome : Settled Response) (ui : UI) : UI * Exit :=
  match outcome with
  | Rejected e => on_failure e ui
  | Resolved resp =>
      match interpret resp ui with
      | Return ui' x => (ui', x)
      | Throw ui' e => on_failure e ui'
      end
  end.

(** ** The analyze handler *)

(** [onAnalyzeClick] up to its first [await]: reset, clear the status,
    validate the selected file.  [None] is the early [return]. *)
Definition analyze_begin (ui : UI) : UI * option File :=
  let ui := resetResult ui in
  let ui := setStatusText "" false ui in
  let file := fileInput_file ui in
  match validateFile file with
  | Some err => (setStatusText err true ui, None)
  | None =>
      match file with
      | Some f => (setStatusText MSG_CHECKING false ui, Some f)
      | None => (ui, None)   (* not reached: a missing file is rejected *)
      end
  end.

(** From the heuristic's result to the call of [fetchWithTimeout]: the page
    as it is when the request goes out. *)
Definition analyze_send (greenRatio : float) (ui : UI) : UI :=
  let ui :=
    if (greenRatio <? GREEN_RATIO_THRESHOLD)%float then
      showExplain (setStatusText MSG_NOT_LEAF true ui)
    else ui in
  let ui := setStatusText MSG_ANALYZING false ui in
  showSpinner true ui.

(** The page of a valid attempt as it is when the request goes out. *)
Definition page_sent (ui : UI) (f : File) : UI :=
  analyze_send (greenRatioHeuristic f)
    (setStatusText MSG_CHECKING false
       (setStatusText "" false (resetResult ui))).

(** The options of the analyze request. *)
Definition analyze_options (file : File) : Options :=
  {| opt_method := "POST";
     opt_body := [("file", file)];
     opt_timeout := Some ANALYZE_TIMEOUT |}.

(** What one run of the handler leaves behind: the page, the exit taken, the
    page as it was when the request went out, and the bounded call. *)
Record Attempt : Type := mkAttempt {
  page_after : UI;
  exit : Exit;
  page_at_send : option UI;
  call : option FetchCall
}.

(** [onAnalyzeClick], run against the deliveries [events] of the event loop
    in the order they happen. *)
Definition onAnalyzeClick (events : list LoopEvent) (ui : UI) : Attempt :=
  match analyze_begin ui with
  | (ui1, None) =>
      {| page_after := ui1; exit := ExitInvalid;
         page_at_send := None; call := None |}
  | (ui1, Some file) =>
      let greenRatio := greenRatioHeuristic file in
      let ui2 := analyze_send greenRatio ui1 in
      let c := run_fetch events (fetchWithTimeout API_URL (analyze_options file)) in
      match settlements c with
      | [] =>
          {| page_after := ui2; exit := ExitPending;
             page_at_send := Some ui2; call := Some c |}
      | outcome :: _ =>
          let '(ui3, x) := analyze_settle outcome ui2 in
          {| page_after := ui3; exit := x;
             page_at_send := Some ui2; call := Some c |}
      end
  end.

(** ** The file-selection handler *)

Inductive Selection : Type :=
| SelectionAccepted
| SelectionInvalid        (* validateFile returned a message *)
| SelectionTooSmall
| SelectionUnreadable.

(** The [change] listener of the file input. *)
Definition onFileChange (ui : UI) : UI * Selection :=
  let ui := resetResult ui in
  let ui := setStatusText "" false ui in
  let file := fileInput_file ui in
  match validateFile file with
  | Some err => (clearFile (setStatusText err true ui), SelectionInvalid)
  | None =>
      match file with
      | None => (ui, SelectionInvalid)   (* not reached *)
      | Some f =>
          match readImageDimensions f with
          | Resolved (width, height) =>
              if ((width <? MIN_DIM) || (height <? MIN_DIM))%N then
                (clearFile (setStatusText MSG_TOO_SMALL true ui),
                 SelectionTooSmall)
              else (showPreview f ui, SelectionAccepted)
          | Rejected _ =>
              (clearFile (setStatusText MSG_UNREADABLE true ui),
               SelectionUnreadable)
          end
      end
  end.

(** ** The pipeline

    The script keeps no state variable; the state of the pipeline is the
    exit the last handler took. *)
Inductive PipelineState : Type :=
| Idle | Previewed | Checking | Sending | ResultReady | Error.

Definition state_after_selection (s : Selection) : PipelineState :=
  match s with
  | SelectionAccepted => Previewed
  | _ => Idle
  end.

Definition state_after_attempt (x : Exit) : PipelineState :=
  match x with
  | ExitInvalid => Idle
  | ExitPending => Sending
  | ExitResult _ => ResultReady
  | ExitServerError | ExitMalformed | ExitTimeout | ExitNetworkFailure => Error
  end.

Record Pipeline : Type := mkPipeline {
  page : UI;
  state : PipelineState
}.

(** The two events of the UI port.  A selection carries the user's pick; an
    analyze request carries what the event loop will deliver to its call. *)
Inductive UserEvent : Type :=
| FileSelected (picked : option File)
| AnalyzeRequested (events : list LoopEvent).

(** One handler run from its start to its end with nothing else happening
    in between: the stages of the handler composed.  The [World] below runs
    the handlers as the event loop does, suspended at each [await]; a
    [step] is what it does when the turns of one handler follow one another
    (lemma [handler_turns_are_step]), and in [step] a request that never
    settles is left behind. *)
Definition step (ev : UserEvent) (p : Pipeline) : Pipeline :=
  match ev with
  | FileSelected picked =>
      let '(ui, s) := onFileChange (setFile picked (page p)) in
      {| page := ui; state := state_after_selection s |}
  | AnalyzeRequested events =>
      let a := onAnalyzeClick events (page p) in
      {| page := page_after a; state := state_after_attempt (exit a) |}
  end.

Definition run (evs : list UserEvent) (p : Pipeline) : Pipeline :=
  fold_left (fun p ev => step ev p) evs p.

(** A page as it is loaded: nothing selected, the result panel hidden. *)
Definition fresh (p : Pipeline) : Prop :=
  state p = Idle /\ fileInput_file (page p) = None
  /\ resultEl_hidden (page p) = true.

Definition reachable (p : Pipeline) : Prop :=
  exists p0 evs, fresh p0 /\ p = run evs p0.

(** The analysis result on display, if any. *)
Definition analysis_result (ui : UI) : option (DomText * DomText) :=
  if resultEl_hidden ui then None
  else Some (resultClass_text ui, resultConfidence_text ui).

(** The value a property read yields where it does not throw. *)
Definition field (data : JsValue) (k : string) : JsValue :=
  match get_property data k with
  | Resolved v => v
  | Rejected _ => VUndefined
  end.

(** ** The claims of the specification, in its own words *)

(** The reply the specification's interpreter accepts: a non-empty [class]
    string and a numeric [confidence] in the interval from 0 to 1. *)
Definition spec_well_formed (data : JsValue) : bool :=
  match get_property data "class", get_property data "confidence" with
  | Resolved (VStr s), Resolved (VNum c) =>
      negb (String.eqb s "") && (0 <=? c)%float && (c <=? 1)%float
  | _, _ => false
  end.

(** A pixel of the sampled buffer. *)
Record Pixel : Type := mkPixel {
  red : Byte.byte;
  green : Byte.byte;
  blue : Byte.byte;
  alpha : Byte.byte
}.

Definition pixel_bytes (p : Pixel) : list Byte.byte :=
  [red p; green p; blue p; alpha p].

(** The buffer [getImageData] returns for a list of pixels. *)
Definition buffer_of (pixels : list Pixel) : list Byte.byte :=
  flat_map pixel_bytes pixels.

(** The sums of the specification's formula, accumulated in buffer order. *)
Definition green_sum (pixels : list Pixel) : float :=
  fold_left (fun acc p => (acc + byte_num (green p))%float) pixels 0%float.

Definition luminance_sum (pixels : list Pixel) : float :=
  fold_left
    (fun acc p =>
       (acc + (byte_num (red p) + byte_num (green p) + byte_num (blue p)) / 3)%float)
    pixels 0%float.

(** ratio = (sum of green) / (sum of (red+green+blue)/3 + epsilon) *)
Definition spec_ratio (pixels : list Pixel) : float :=
  (green_sum pixels / (luminance_sum pixels + EPSILON))%float.

(** [|x - y| <= tol] *)
Definition within (tol x y : float) : bool :=
  (PrimFloat.abs (x - y) <=? tol)%float.

(** ** Sample inputs *)

(** A 64x64 buffer of one colour. *)
Definition solid (r g b : Byte.byte) : list Pixel :=
  repeat (mkPixel r g b Byte.xff) (64 * 64).

Definition black_pixels : list Pixel := solid Byte.x00 Byte.x00 Byte.x00.
Definition white_pixels : list Pixel := solid Byte.xff Byte.xff Byte.xff.
Definition green_pixels : list Pixel := solid Byte.x00 Byte.xff Byte.x00.

Definition quoted (s : string) : string :=
  String dquote (s ++ String dquote EmptyString).

(** {"detail":"model unavailable"} *)
Definition body_model_unavailable : string :=
  "{" ++ quoted "detail" ++ ":" ++ quoted "model unavailable" ++ "}".

(** {"class":"Healthy","confidence":0.92} *)
Definition body_healthy : string :=
  "{" ++ quoted "class" ++ ":" ++ quoted "Healthy" ++ ","
      ++ quoted "confidence" ++ ":0.92}".

(** {"class":"Healthy","confidence":1.5} *)
Definition body_out_of_range : string :=
  "{" ++ quoted "class" ++ ":" ++ quoted "Healthy" ++ ","
      ++ quoted "confidence" ++ ":1.5}".

(** {"class":"Healthy"} *)
Definition body_no_confidence : string :=
  "{" ++ quoted "class" ++ ":" ++ quoted "Healthy" ++ "}".

(** {"class":123,"confidence":0.95} *)
Definition body_numeric_class : string :=
  "{" ++ quoted "class" ++ ":123," ++ quoted "confidence" ++ ":0.95}".

(** {"class":"","confidence":0.95} *)
Definition body_empty_class : string :=
  "{" ++ quoted "class" ++ ":" ++ quoted "" ++ ","
      ++ quoted "confidence" ++ ":0.95}".

(** {"class":"Early blight","confidence":0.70} and the same with 0.699999 *)
Definition body_at_threshold : string :=
  "{" ++ quoted "class" ++ ":" ++ quoted "Early blight" ++ ","
      ++ quoted "confidence" ++ ":0.70}".
Definition body_below_threshold : string :=
  "{" ++ quoted "class" ++ ":" ++ quoted "Early blight" ++ ","
      ++ quoted "confidence" ++ ":0.699999}".

(** {"class":{"toString":null},"confidence":0.9} *)
Definition body_unprintable_class : string :=
  "{" ++ quoted "class" ++ ":{" ++ quoted "toString" ++ ":null},"
      ++ quoted "confidence" ++ ":0.9}".

(** {"detail":{"toString":null}} *)
Definition body_unprintable_detail : string :=
  "{" ++ quoted "detail" ++ ":{" ++ quoted "toString" ++ ":null}}".

(** A 2 MiB JPEG of 800x600 pixels that samples to pure green. *)
Definition leaf_file : File :=
  {| type := "image/jpeg";
     size := 2 * 1024 * 1024;
     decoded := Some {| naturalWidth := 800; naturalHeight := 600;
                        sampled := buffer_of green_pixels |} |}.

(** A valid image that samples to black: its ratio is below the warning
    threshold. *)
Definition dark_file : File :=
  {| type := "image/png";
     size := 1024;
     decoded := Some {| naturalWidth := 640; naturalHeight := 480;
                        sampled := buffer_of black_pixels |} |}.

(** An image file whose payload does not decode. *)
Definition broken_file : File :=
  {| type := "image/png"; size := 1024; decoded := None |}.

(** A 6 MiB text file, and a 6 MiB image. *)
Definition big_text_file : File :=
  {| type := "text/plain"; size := 6 * 1024 * 1024; decoded := None |}.
Definition big_image_file : File :=
  {| type := "image/png"; size := 6 * 1024 * 1024; decoded := None |}.

(** The page after [DOMContentLoaded]. *)
Definition loaded_page : UI :=
  {| fileInput_file := None;
     previewImg_src := None;
     previewRow_hidden := true;
     analyzeBtn_disabled := true;
     analyzeBtn2_disabled := true;
     initialActions_hidden := false;
     statusEl_text := Text "";
     statusEl_color := "";
     spinner_hidden := true;
     resultEl_hidden := true;
     resultClass_text := Text DASH;
     resultConfidence_text := Text DASH;
     explain_hidden := true;
     status_history := [] |}.

Definition loaded : Pipeline := {| page := loaded_page; state := Idle |}.

(** The page with [f] selected and previewed. *)
Definition page_with (f : File) : UI :=
  page (step (FileSelected (Some f)) loaded).

Definition reply (code : N) (text : string) : LoopEvent :=
  ResponseArrives {| status := code; body := Some text |}.

(** ** The rest of the page script *)

(** The [DOMContentLoaded] listener: both analyze buttons get the
    [disabled] attribute. *)
Definition onDOMContentLoaded (ui : UI) : UI :=
  {| fileInput_file := fileInput_file ui;
     previewImg_src := previewImg_src ui;
     previewRow_hidden := previewRow_hidden ui;
     analyzeBtn_disabled := true;
     analyzeBtn2_disabled := true;
     initialActions_hidden := initialActions_hidden ui;
     statusEl_text := statusEl_text ui;
     statusEl_color := statusEl_color ui;
     spinner_hidden := spinner_hidden ui;
     resultEl_hidden := resultEl_hidden ui;
     resultClass_text := resultClass_text ui;
     resultConfidence_text := resultConfidence_text ui;
     explain_hidden := explain_hidden ui;
     status_history := status_history ui |}.

(** What the status line, the result panel and the explanation show. *)
Definition display (ui : UI)
  : DomText * string * bool * DomText * DomText * bool :=
  (statusEl_text ui, statusEl_color ui, resultEl_hidden ui,
   resultClass_text ui, resultConfidence_text ui, explain_hidden ui).

(** The preview block: the previewed file, the preview row, both analyze
    buttons and the initial actions. *)
Definition preview_block (ui : UI) : option File * bool * bool * bool * bool :=
  (previewImg_src ui, previewRow_hidden ui, analyzeBtn_disabled ui,
   analyzeBtn2_disabled ui, initialActions_hidden ui).

(** The colour channels of a pixel, without its alpha. *)
Definition rgb (p : Pixel) : Byte.byte * Byte.byte * Byte.byte :=
  (red p, green p, blue p).





(** What an enabled analyze button stands for. *)
Definition buttons_sound (ui : UI) : Prop :=
  analyzeBtn_disabled ui = analyzeBtn2_disabled ui
  /\ (analyzeBtn_disabled ui = false ->
      previewRow_hidden ui = false
      /\ initialActions_hidden ui = true
      /\ exists f img,
           previewImg_src ui = Some f /\ validateFile (Some f) = None
           /\ decoded f = Some img
           /\ (64 <= naturalWidth img)%N /\ (64 <= naturalHeight img)%N).

(** ** The handlers as the event loop runs them

    Both handlers are [async]: each runs until its next [await], is
    suspended there, and goes on when the awaited promise settles.  Nothing
    in the script keeps a second handler from starting meanwhile: the file
    input and the analyze buttons stay enabled.  A [World] is the page
    together with the suspended handlers. *)

(** The [change] handler up to [await readImageDimensions(file)] (line
    121); [None] is the early [return] of line 116. *)
Definition change_begin (ui : UI) : UI * option File :=
  let ui := resetResult ui in
  let ui := setStatusText "" false ui in
  let file := fileInput_file ui in
  match validateFile file with
  | Some err => (clearFile (setStatusText err true ui), None)
  | None => (ui, file)
  end.

(** The [change] handler from the moment the decode has settled, on the
    page as it is by then. *)
Definition change_resume (f : File) (ui : UI) : UI * Selection :=
  match readImageDimensions f with
  | Resolved (width, height) =>
      if ((width <? MIN_DIM) || (height <? MIN_DIM))%N then
        (clearFile (setStatusText MSG_TOO_SMALL true ui), SelectionTooSmall)
      else (showPreview f ui, SelectionAccepted)
  | Rejected _ =>
      (clearFile (setStatusText MSG_UNREADABLE true ui), SelectionUnreadable)
  end.

(** A suspended handler, named after the [await] it waits at. *)
Inductive Task : Type :=
| DecodingPick (f : File)         (* change handler, line 121 *)
| CheckingImage (f : File)        (* onAnalyzeClick, line 158 *)
| AwaitingReply (c : FetchCall)   (* onAnalyzeClick, line 174 *)
| ReadingBody (resp : Response).  (* onAnalyzeClick, lines 181 and 192 *)

Record World : Type := mkWorld {
  w_page : UI;
  w_state : PipelineState;
  w_tasks : list Task
}.

(** What can happen next: the user picks a file or clicks analyze, the
    promise the [n]-th suspended handler awaits settles, or the event loop
    delivers [ev] to the call the [n]-th suspended handler awaits. *)
Inductive Action : Type :=
| Pick (picked : option File)
| Click
| Settle (n : nat)
| Deliver (n : nat) (ev : LoopEvent).

Definition replace_task (n : nat) (new : list Task) (tasks : list Task)
  : list Task :=
  (firstn n tasks ++ new ++ skipn (S n) tasks)%list.

(** One turn of the event loop.  A handler that starts runs to its first
    [await] or to its early [return]; a handler that resumes runs to its
    next [await] or to its end.  The state of the pipeline follows the
    handler that moved last. *)
Definition act (a : Action) (w : World) : World :=
  match a with
  | Pick picked =>
      match change_begin (setFile picked (w_page w)) with
      | (ui, None) =>
          {| w_page := ui;
             w_state := state_after_selection SelectionInvalid;
             w_tasks := w_tasks w |}
      | (ui, Some f) =>
          {| w_page := ui;
             w_state := w_state w;
             w_tasks := (w_tasks w ++ [DecodingPick f])%list |}
      end
  | Click =>
      match analyze_begin (w_page w) with
      | (ui, None) =>
          {| w_page := ui;
             w_state := state_after_attempt ExitInvalid;
             w_tasks := w_tasks w |}
      | (ui, Some f) =>
          {| w_page := ui;
             w_state := Checking;
             w_tasks := (w_tasks w ++ [CheckingImage f])%list |}
      end
  | Settle n =>
      match nth_error (w_tasks w) n with
      | Some (DecodingPick f) =>
          let '(ui, s) := change_resume f (w_page w) in
          {| w_page := ui;
             w_state := state_after_selection s;
             w_tasks := replace_task n [] (w_tasks w) |}
      | Some (CheckingImage f) =>
          {| w_page := analyze_send (greenRatioHeuristic f) (w_page w);
             w_state := Sending;
             w_tasks :=
               replace_task n
                 [AwaitingReply (fetchWithTimeout API_URL (analyze_options f))]
                 (w_tasks w) |}
      | Some (ReadingBody resp) =>
          let '(ui, x) := analyze_settle (Resolved resp) (w_page w) in
          {| w_page := ui;
             w_state := state_after_attempt x;
             w_tasks := replace_task n [] (w_tasks w) |}
      | _ => w
      end
  | Deliver n ev =>
      match nth_error (w_tasks w) n with
      | Some (AwaitingReply c) =>
          match settlements (deliver ev c) with
          | [] =>
              {| w_page := w_page w;
                 w_state := w_state w;
                 w_tasks := replace_task n [AwaitingReply (deliver ev c)] (w_tasks w) |}
          | Resolved resp :: _ =>
              {| w_page := w_page w;
                 w_state := w_state w;
                 w_tasks := replace_task n [ReadingBody resp] (w_tasks w) |}
          | Rejected e :: _ =>
              let '(ui, x) := analyze_settle (Rejected e) (w_page w) in
              {| w_page := ui;
                 w_state := state_after_attempt x;
                 w_tasks := replace_task n [] (w_tasks w) |}
          end
      | _ => w
      end
  end.

Definition run_world (acts : list Action) (w : World) : World :=
  fold_left (fun w a => act a w) acts w.

(** A schedule in which the user picks and clicks only while no handler is
    suspended: handlers run one at a time. *)
Fixpoint exclusive (acts : list Action) (w : World) : bool :=
  match acts with
  | [] => true
  | a :: rest =>
      match a, w_tasks w with
      | (Pick _ | Click), _ :: _ => false
      | _, _ => exclusive rest (act a w)
      end
  end.

(** A page as it is loaded, with no handler under way. *)
Definition just_loaded (w : World) : Prop :=
  w_state w = Idle /\ fileInput_file (w_page w) = None
  /\ resultEl_hidden (w_page w) = true /\ w_tasks w = [].

Definition loaded_world : World :=
  {| w_page := loaded_page; w_state := Idle; w_tasks := [] |}.

(** The turns of the event loop that run one handler from its start to its
    end with nothing in between. *)
Definition handler_turns (ev : UserEvent) : list Action :=
  match ev with
  | FileSelected picked => [Pick picked; Settle 0]
  | AnalyzeRequested events =>
      ([Click; Settle 0] ++ map (Deliver 0) events ++ [Settle 0])%list
  end.

(** With handlers run one at a time: at most one handler is suspended,
    nothing is on display while one is, and a result on display means the
    state is ResultReady. *)
Definition one_at_a_time (w : World) : Prop :=
  (w_tasks w = [] \/ exists t, w_tasks w = [t])
  /\ (w_tasks w <> [] -> resultEl_hidden (w_page w) = true)
  /\ (resultEl_hidden (w_page w) = false -> w_state w = ResultReady).

(* ================================================================= *)
(** * Part II: properties *)
(* ================================================================= *)

(** ** Tactics *)

Ltac break_match :=
  match goal with
  | |- context [match ?x with _ => _ end] => destruct x eqn:?
  end.

(** Case analysis on an innermost scrutinee of the goal. *)
Ltac break_inner :=
  match goal with
  | |- context [match ?x with _ => _ end] =>
      lazymatch x with
      | context [match _ with _ => _ end] => fail
      | _ => destruct x eqn:?
      end
  end.

Ltac break_match_in H :=
  match type of H with
  | context [match ?x with _ => _ end] => destruct x eqn:?
  end.

(** ** Validation *)

Lemma validateFile_missing : validateFile None = Some (validation_message MissingFile).
Proof. reflexivity. Qed.

Lemma validateFile_passes (f : File) :
  validateFile (Some f) = None <->
  String.prefix "image/" (type f) = true /\ (size f <= MAX_SIZE)%N.
Proof.
  unfold validateFile.
  destruct (String.prefix "image/" (type f)); simpl.
  - destruct (N.ltb_spec MAX_SIZE (size f)); split; intros H0.
    + discriminate.
    + destruct H0 as [_ H0]. lia.
    + split; [reflexivity | assumption].
    + reflexivity.
  - split; [discriminate | intros [H0 _]; discriminate].
Qed.

(** C5, as stated, fails: a 6 MiB file declared [text/plain] is over the
    limit and is rejected for its type, not for its size. *)
Lemma C5_oversized_text_file_is_InvalidType :
  (MAX_SIZE < size big_text_file)%N
  /\ validateFile (Some big_text_file) = Some (validation_message InvalidType)
  /\ validateFile (Some big_text_file) <> Some (validation_message TooLarge).
Proof.
  split; [reflexivity | split; [reflexivity | discriminate]].
Qed.

(** C5, amended: the rules are checked in order, so a file over 5 MiB is
    reported as TooLarge exactly when its declared type indicates an image;
    an oversized file of any other type is reported as InvalidType.  Either
    way a file over the limit never passes. *)
Theorem C5_too_large_after_type_rule (f : File) :
  (MAX_SIZE < size f)%N ->
  MAX_SIZE = (5 * 1024 * 1024)%N
  /\ (String.prefix "image/" (type f) = true ->
      validateFile (Some f) = Some (validation_message TooLarge))
  /\ (String.prefix "image/" (type f) = false ->
      validateFile (Some f) = Some (validation_message InvalidType))
  /\ validateFile (Some f) <> None.
Proof.
  intros Hsize. unfold validateFile.
  apply N.ltb_lt in Hsize. rewrite Hsize.
  split; [reflexivity |].
  destruct (String.prefix "image/" (type f)); simpl;
    repeat split; intros; try reflexivity; discriminate.
Qed.

Lemma C5_too_large_witness :
  (MAX_SIZE < size big_image_file)%N
  /\ validateFile (Some big_image_file) = Some (validation_message TooLarge).
Proof.
  split; [reflexivity |].
  apply (C5_too_large_after_type_rule big_image_file); reflexivity.
Defined.

(** ** Green-ratio heuristic *)

Lemma green_loop_pixels (pixels : list Pixel) (gSum total : float) :
  green_loop (buffer_of pixels) gSum total =
  (fold_left (fun acc p => (acc + byte_num (green p))%float) pixels gSum,
   fold_left
     (fun acc p =>
        (acc + (byte_num (red p) + byte_num (green p) + byte_num (blue p)) / 3)%float)
     pixels total).
Proof.
  revert gSum total.
  induction pixels as [| p rest IH]; intros gSum total.
  - reflexivity.
  - destruct p as [r g b a]. simpl. apply IH.
Qed.

Lemma green_ratio_formula (pixels : list Pixel) :
  green_ratio (buffer_of pixels) = spec_ratio pixels.
Proof.
  unfold green_ratio, spec_ratio, green_sum, luminance_sum.
  rewrite green_loop_pixels. reflexivity.
Qed.

(** C4, as stated, fails: an all-black 64x64 buffer has ratio exactly 0, which
    is not within any tolerance below one half of the neutral 0.5. *)
Lemma C4_black_buffer_ratio_is_zero :
  List.length (buffer_of black_pixels) = (64 * 64 * 4)%nat
  /\ green_ratio (buffer_of black_pixels) = 0%float
  /\ within 0.49%float (green_ratio (buffer_of black_pixels)) 0.5%float = false.
Proof.
  split; [| split]; vm_compute; reflexivity.
Qed.

(** C4, amended: the heuristic is a pure function of the sampled buffer and
    computes ratio = (sum of green) / (sum of (red+green+blue)/3 + epsilon)
    with epsilon = 1e-9; identical buffers yield identical ratios; an
    all-black buffer yields exactly 0, an all-white buffer yields 1.0 and a
    pure-green buffer yields 3.0, both within 1e-9. *)
Theorem C4_green_ratio_formula_and_values :
  EPSILON = 1e-9%float
  /\ (forall pixels, green_ratio (buffer_of pixels) = spec_ratio pixels)
  /\ (forall f1 f2, decoded f1 = decoded f2 ->
        greenRatioHeuristic f1 = greenRatioHeuristic f2)
  /\ green_ratio (buffer_of black_pixels) = 0%float
  /\ within 1e-9%float (green_ratio (buffer_of white_pixels)) 1%float = true
  /\ within 1e-9%float (green_ratio (buffer_of green_pixels)) 3%float = true.
Proof.
  split; [reflexivity |].
  split; [exact green_ratio_formula |].
  split.
  { intros f1 f2 H. unfold greenRatioHeuristic. rewrite H. reflexivity. }
  repeat split; vm_compute; reflexivity.
Qed.

(** ** Comparison of numbers *)

Lemma SFcompare_antisym (x y : spec_float) :
  SFcompare y x = option_map CompOpp (SFcompare x y).
Proof.
  destruct x as [sx | sx | | sx mx ex], y as [sy | sy | | sy my ey];
    simpl; try reflexivity;
    try (destruct sx; reflexivity); try (destruct sy; reflexivity);
    try (destruct sx, sy; reflexivity).
  destruct sx, sy; simpl; try reflexivity.
  - rewrite (Z.compare_antisym ex ey).
    destruct (ex ?= ey)%Z eqn:E; simpl; try reflexivity.
    rewrite (Pos.compare_cont_antisym mx my Eq). reflexivity.
  - rewrite (Z.compare_antisym ex ey).
    destruct (ex ?= ey)%Z eqn:E; simpl; try reflexivity.
    rewrite (Pos.compare_cont_antisym mx my Eq). reflexivity.
Qed.

(** [x <= y] excludes [y < x], NaN included. *)
Lemma leb_true_ltb_false (x y : float) :
  (x <=? y)%float = true -> (y <? x)%float = false.
Proof.
  rewrite leb_spec, ltb_spec. unfold SFleb, SFltb.
  rewrite (SFcompare_antisym (Prim2SF x) (Prim2SF y)).
  destruct (SFcompare (Prim2SF x) (Prim2SF y)) as [[ | | ] |]; simpl;
    intros H; try reflexivity; discriminate.
Qed.

(** ** Values *)

Lemma typeof_number (v : JsValue) :
  typeof v = "number" <-> exists x, v = VNum x.
Proof.
  split.
  - destruct v; simpl; intros H; try discriminate. eexists; reflexivity.
  - intros [x ->]. reflexivity.
Qed.

Lemma typeof_number_eqb (v : JsValue) :
  String.eqb (typeof v) "number" = true <-> typeof v = "number".
Proof. apply String.eqb_eq. Qed.

Lemma field_resolved (data : JsValue) (k : string) (v : JsValue) :
  get_property data k = Resolved v -> field data k = v.
Proof. unfold field. intros ->. reflexivity. Qed.

(** A property read throws exactly on [null] and [undefined], whatever the
    key. *)
Lemma get_property_throws (data : JsValue) (k : string) :
  (data = VNull \/ data = VUndefined) -> get_property data k = Rejected TypeError.
Proof. intros [-> | ->]; reflexivity. Qed.

Lemma get_property_total (data : JsValue) (k : string) :
  data <> VNull -> data <> VUndefined ->
  get_property data k = Resolved (field data k).
Proof.
  intros Hn Hu. unfold field.
  destruct data; simpl; try congruence; destruct (own_property props k); reflexivity.
Qed.

(** ** The interpreter, case by case *)

Lemma interpret_not_ok (resp : Response) (ui : UI) :
  ok resp = false ->
  interpret resp ui =
  Return
    (showSpinner false
       (report_server_error
          (match body resp with Some s => s | None => MSG_SERVER_ERROR end) ui))
    ExitServerError.
Proof.
  intros H. unfold interpret, resp_text. rewrite H. simpl.
  destruct (body resp); reflexivity.
Qed.

Lemma interpret_unparsed (resp : Response) (ui : UI) (e : JsError) :
  ok resp = true -> resp_json resp = Rejected e ->
  interpret resp ui = Throw ui e.
Proof.
  intros H J. unfold interpret. rewrite H, J. reflexivity.
Qed.

Lemma interpret_null (resp : Response) (ui : UI) (data : JsValue) :
  ok resp = true -> resp_json resp = Resolved data ->
  (data = VNull \/ data = VUndefined) ->
  interpret resp ui = Throw (showSpinner false ui) TypeError.
Proof.
  intros H J D. unfold interpret. rewrite H, J. simpl.
  rewrite (get_property_throws data "class" D). reflexivity.
Qed.

Lemma interpret_malformed (resp : Response) (ui : UI) (data : JsValue) :
  ok resp = true -> resp_json resp = Resolved data ->
  data <> VNull -> data <> VUndefined ->
  (truthy (field data "class") = false
   \/ typeof (field data "confidence") <> "number") ->
  interpret resp ui =
  Return (setStatusText MSG_UNEXPECTED true (showSpinner false ui)) ExitMalformed.
Proof.
  intros H J Hn Hu D. unfold interpret. rewrite H, J. simpl.
  rewrite (get_property_total data "class" Hn Hu).
  rewrite (get_property_total data "confidence" Hn Hu).
  destruct D as [D | D].
  - rewrite D. reflexivity.
  - destruct (String.eqb (typeof (field data "confidence")) "number") eqn:E.
    + apply String.eqb_eq in E. contradiction.
    + rewrite orb_true_r. reflexivity.
Qed.

Lemma dom_text_convertible (v : JsValue) :
  text_convertible v = true -> exists shown, dom_text v = Resolved shown.
Proof.
  intros H. unfold dom_text. rewrite H. eexists; reflexivity.
Qed.

Lemma dom_text_throws (v : JsValue) :
  text_convertible v = false -> dom_text v = Rejected TypeError.
Proof.
  intros H. unfold dom_text. rewrite H. reflexivity.
Qed.

Lemma dom_text_string (s : string) : dom_text (VStr s) = Resolved (Text s).
Proof. reflexivity. Qed.

(** A string message is shown as it is, and the call does not throw. *)
Lemma setStatus_of_string (msg : string) (isError : bool) (ui : UI) :
  setStatus (VStr msg) isError ui = Resolved (setStatusText msg isError ui).
Proof.
  unfold setStatus, js_or. simpl.
  destruct (String.eqb msg "") eqn:E; simpl; [| reflexivity].
  apply String.eqb_eq in E. subst msg. reflexivity.
Qed.

Lemma display_result_shown (cls : JsValue) (shown : DomText) (c : float)
  (t : Trust) (ui : UI) :
  dom_text cls = Resolved shown ->
  display_result cls c t ui = Return (showResult shown c ui) (ExitResult t).
Proof. intros H. unfold display_result. rewrite H. reflexivity. Qed.

Lemma display_result_throws (cls : JsValue) (c : float) (t : Trust) (ui : UI) :
  text_convertible cls = false ->
  display_result cls c t ui = Throw ui TypeError.
Proof.
  intros H. unfold display_result. rewrite (dom_text_throws cls H). reflexivity.
Qed.

Lemma interpret_accepted (resp : Response) (ui : UI) (data : JsValue) (c : float) :
  ok resp = true -> resp_json resp = Resolved data ->
  data <> VNull -> data <> VUndefined ->
  truthy (field data "class") = true ->
  field data "confidence" = VNum c ->
  interpret resp ui
  = display_result (field data "class") c (trust_of c) (page_before_result c ui).
Proof.
  intros H J Hn Hu T C. unfold interpret. rewrite H, J. simpl.
  rewrite (get_property_total data "class" Hn Hu).
  rewrite (get_property_total data "confidence" Hn Hu).
  rewrite T, C. simpl. unfold trust_of, page_before_result.
  destruct (c <? CONFIDENCE_THRESHOLD)%float; reflexivity.
Qed.

Lemma on_failure_abort (ui : UI) :
  on_failure AbortError ui =
  (setStatusText MSG_TIMEOUT true (showSpinner false ui), ExitTimeout).
Proof. reflexivity. Qed.

Lemma on_failure_other (e : JsError) (ui : UI) :
  e <> AbortError ->
  on_failure e ui =
  (setStatusText MSG_NETWORK true (showSpinner false ui), ExitNetworkFailure).
Proof. destruct e; intros H; try reflexivity. contradiction. Qed.

Lemma resp_json_never_aborts (resp : Response) (e : JsError) :
  resp_json resp = Rejected e -> e <> AbortError.
Proof.
  unfold resp_json. destruct (body resp) as [s |].
  - destruct (JSON_parse s); intros H; inversion H; discriminate.
  - intros H; inversion H; discriminate.
Qed.

Lemma get_property_never_aborts (data : JsValue) (k : string) (e : JsError) :
  get_property data k = Rejected e -> e <> AbortError.
Proof.
  destruct data; simpl; intros H; try discriminate;
    try (inversion H; discriminate).
  destruct (own_property props k); discriminate.
Qed.

Lemma display_result_never_aborts (cls : JsValue) (c : float) (t : Trust)
  (ui ui' : UI) (e : JsError) :
  display_result cls c t ui = Throw ui' e -> e <> AbortError.
Proof.
  unfold display_result, dom_text.
  destruct (text_convertible cls); intros H; inversion H; discriminate.
Qed.

(** Nothing the [try] block throws is an AbortError. *)
Lemma interpret_never_aborts (resp : Response) (ui ui' : UI) (e : JsError) :
  interpret resp ui = Throw ui' e -> e <> AbortError.
Proof.
  unfold interpret.
  destruct (negb (ok resp)); [discriminate |].
  destruct (resp_json resp) as [data | e0] eqn:J.
  - destruct (get_property data "class") as [cls | e1] eqn:G1.
    + destruct (get_property data "confidence") as [conf | e2] eqn:G2.
      * destruct (negb (truthy cls) || negb (String.eqb (typeof conf) "number"));
          [discriminate |].
        destruct conf; try discriminate.
        destruct (x <? CONFIDENCE_THRESHOLD)%float;
          apply display_result_never_aborts.
      * intros H; inversion H; subst.
        exact (get_property_never_aborts _ _ _ G2).
    + intros H; inversion H; subst.
      exact (get_property_never_aborts _ _ _ G1).
  - intros H; inversion H; subst. exact (resp_json_never_aborts _ _ J).
Qed.

(** The outcomes of a 2xx reply. *)
Lemma interpret_ok_return (resp : Response) (ui ui' : UI) (x : Exit) :
  ok resp = true -> interpret resp ui = Return ui' x ->
  x = ExitMalformed \/ exists t, x = ExitResult t.
Proof.
  intros Hok. unfold interpret, display_result. rewrite Hok. simpl.
  intros H. repeat (break_match_in H; try discriminate);
    inversion H; subst; eauto.
Qed.

Lemma settle_ok_reply (resp : Response) (ui : UI) :
  ok resp = true ->
  let out := analyze_settle (Resolved resp) ui in
  snd out = ExitMalformed
  \/ (exists t, snd out = ExitResult t)
  \/ (snd out = ExitNetworkFailure
      /\ statusEl_text (fst out) = Text MSG_NETWORK
      /\ statusEl_color (fst out) = COLOR_ERROR
      /\ spinner_hidden (fst out) = true).
Proof.
  intros Hok out. subst out. unfold analyze_settle.
  destruct (interpret resp ui) as [ui' x | ui' e] eqn:I.
  - destruct (interpret_ok_return resp ui ui' x Hok I) as [-> | [t ->]];
      [left; reflexivity | right; left; exists t; reflexivity].
  - rewrite (on_failure_other e ui' (interpret_never_aborts _ _ _ _ I)).
    right; right. repeat split.
Qed.

(** A reply that is displayed: what it must have been, and what the page
    shows. *)
Lemma accepted_reply (resp : Response) (ui : UI) (t : Trust) :
  snd (analyze_settle (Resolved resp) ui) = ExitResult t ->
  exists data c shown,
    ok resp = true /\ resp_json resp = Resolved data
    /\ data <> VNull /\ data <> VUndefined
    /\ truthy (field data "class") = true
    /\ field data "confidence" = VNum c
    /\ dom_text (field data "class") = Resolved shown
    /\ t = trust_of c
    /\ fst (analyze_settle (Resolved resp) ui)
       = showResult shown c (page_before_result c ui).
Proof.
  unfold analyze_settle. intros Hx.
  destruct (ok resp) eqn:Hok.
  2:{ rewrite (interpret_not_ok resp ui Hok) in Hx. discriminate. }
  destruct (resp_json resp) as [data | e] eqn:J.
  2:{ rewrite (interpret_unparsed resp ui e Hok J) in Hx.
      rewrite (on_failure_other e ui (resp_json_never_aborts resp e J)) in Hx.
      discriminate. }
  assert (Hshape : data <> VNull /\ data <> VUndefined).
  { split; intros ->; rewrite (interpret_null resp ui _ Hok J) in Hx;
      auto; discriminate. }
  destruct Hshape as [Hn Hu].
  destruct (truthy (field data "class")) eqn:T.
  2:{ rewrite (interpret_malformed resp ui data Hok J Hn Hu) in Hx;
        [discriminate | left; exact T]. }
  destruct (field data "confidence") as [ | | | c | | | ] eqn:C;
    try (rewrite (interpret_malformed resp ui data Hok J Hn Hu) in Hx;
         [discriminate | right; rewrite C; discriminate]).
  rewrite (interpret_accepted resp ui data c Hok J Hn Hu T C) in *.
  destruct (text_convertible (field data "class")) eqn:V.
  - destruct (dom_text_convertible _ V) as [shown Hs].
    rewrite (display_result_shown _ shown _ _ _ Hs) in *.
    simpl in Hx. inversion Hx.
    exists data, c, shown. repeat split; auto.
  - rewrite (display_result_throws _ _ _ _ V) in Hx.
    rewrite on_failure_other in Hx by discriminate. discriminate.
Qed.

(** ** Response interpretation *)

(** C1, as stated, fails at two replies.  For
    {"class":"Healthy","confidence":1.5} the confidence is out of range, and
    for {"class":123,"confidence":0.95} the class is not a string; neither is
    well formed in the specification's sense, and both are accepted and
    displayed. *)
Lemma C1_unchecked_range_and_class_type :
  let high := {| status := 200; body := Some body_out_of_range |} in
  let high_data := VObj [("class", VStr "Healthy"); ("confidence", VNum 1.5%float)] in
  let numeric := {| status := 200; body := Some body_numeric_class |} in
  let numeric_data :=
    VObj [("class", VNum 123%float); ("confidence", VNum 0.95%float)] in
  (ok high = true
   /\ resp_json high = Resolved high_data
   /\ spec_well_formed high_data = false
   /\ snd (analyze_settle (Resolved high) loaded_page) = ExitResult Confident
   /\ resultEl_hidden (fst (analyze_settle (Resolved high) loaded_page)) = false)
  /\ (ok numeric = true
      /\ resp_json numeric = Resolved numeric_data
      /\ spec_well_formed numeric_data = false
      /\ snd (analyze_settle (Resolved numeric) loaded_page) = ExitResult Confident
      /\ resultEl_hidden (fst (analyze_settle (Resolved numeric) loaded_page)) = false).
Proof.
  repeat split; vm_compute; reflexivity.
Qed.

(** C1, amended: for a 2xx reply whose body is a JSON value other than
    [null], the interpreter accepts it only if its [class] is truthy and its
    [confidence] has type number, and it does accept it then whenever the
    class converts to text; a missing or falsy [class], or a missing or
    non-number [confidence], yields the Malformed outcome.  Neither the
    range of [confidence] nor the type of [class] is checked.  No 2xx reply
    leaves the handler by an unhandled fault: each ends as Malformed, as a
    displayed result, or in the catch block with the error reported. *)
Theorem C1_reply_checked_for_truthy_class_and_number_confidence
  (resp : Response) (ui : UI) :
  ok resp = true ->
  let out := analyze_settle (Resolved resp) ui in
  (forall data, resp_json resp = Resolved data ->
     data <> VNull -> data <> VUndefined ->
     ((exists t, snd out = ExitResult t) ->
      truthy (field data "class") = true
      /\ typeof (field data "confidence") = "number")
     /\ (truthy (field data "class") = true
         /\ typeof (field data "confidence") = "number"
         /\ text_convertible (field data "class") = true ->
         exists t, snd out = ExitResult t)
     /\ (truthy (field data "class") = false
         \/ typeof (field data "confidence") <> "number" ->
         snd out = ExitMalformed
         /\ statusEl_text (fst out) = Text MSG_UNEXPECTED
         /\ resultEl_hidden (fst out) = resultEl_hidden ui))
  /\ (snd out = ExitMalformed
      \/ (exists t, snd out = ExitResult t)
      \/ (snd out = ExitNetworkFailure
          /\ statusEl_text (fst out) = Text MSG_NETWORK
          /\ statusEl_color (fst out) = COLOR_ERROR
          /\ spinner_hidden (fst out) = true)).
Proof.
  intros Hok out. subst out. split; [| exact (settle_ok_reply resp ui Hok)].
  intros data J Hn Hu. split; [| split].
  - intros [t Hx].
    destruct (accepted_reply resp ui t Hx)
      as (data' & c & shown & _ & J' & _ & _ & T & C & _).
    rewrite J in J'. inversion J'; subst data'.
    split; [exact T | rewrite C; reflexivity].
  - intros (T & N & V). apply typeof_number in N. destruct N as [c N].
    unfold analyze_settle.
    rewrite (interpret_accepted resp ui data c Hok J Hn Hu T N).
    destruct (dom_text_convertible _ V) as [shown Hs].
    rewrite (display_result_shown _ shown _ _ _ Hs).
    eexists; reflexivity.
  - intros D. unfold analyze_settle.
    rewrite (interpret_malformed resp ui data Hok J Hn Hu D).
    repeat split.
Qed.

Lemma C1_reply_checked_witness :
  let resp := {| status := 200; body := Some body_out_of_range |} in
  ok resp = true
  /\ exists t, snd (analyze_settle (Resolved resp) loaded_page) = ExitResult t.
Proof.
  intros resp. split; [reflexivity |].
  destruct (C1_reply_checked_for_truthy_class_and_number_confidence
              resp loaded_page eq_refl) as [H _].
  assert (J : resp_json resp
              = Resolved (VObj [("class", VStr "Healthy");
                                ("confidence", VNum 1.5%float)]))
    by (vm_compute; reflexivity).
  destruct (H _ J) as (_ & Hacc & _); try discriminate.
  apply Hacc. repeat split.
Defined.

(** C10, as stated, fails: in the reply
    {"class":{"toString":null},"confidence":0.9} the class is truthy and the
    confidence is a number, but the class has no string form; assigning it
    to [textContent] throws, nothing is displayed, and the attempt ends in
    the catch block. *)
Lemma C10_truthy_class_without_string_form :
  let resp := {| status := 200; body := Some body_unprintable_class |} in
  let cls := VObj [("toString", VNull)] in
  let data := VObj [("class", cls); ("confidence", VNum 0.9%float)] in
  let out := analyze_settle (Resolved resp) loaded_page in
  ok resp = true
  /\ resp_json resp = Resolved data
  /\ truthy cls = true
  /\ typeof (field data "confidence") = "number"
  /\ snd out = ExitNetworkFailure
  /\ resultEl_hidden (fst out) = true
  /\ statusEl_text (fst out) = Text MSG_NETWORK.
Proof.
  repeat split; vm_compute; reflexivity.
Qed.

(** C10, amended: the check on [class] is by truthiness, not by type: a
    missing or empty [class] is rejected as malformed, any truthy [class]
    that converts to text (a string, a number such as 123, a boolean, an
    array or object with a string form) is accepted and displayed as the
    class, and [confidence] is checked only for having type number.  (The
    witness is the reply with class 123 and confidence 0.95.) *)
Theorem C10_class_checked_by_truthiness
  (resp : Response) (ui : UI) (data cls conf : JsValue) :
  ok resp = true ->
  resp_json resp = Resolved data ->
  get_property data "class" = Resolved cls ->
  get_property data "confidence" = Resolved conf ->
  let out := analyze_settle (Resolved resp) ui in
  (cls = VUndefined \/ cls = VStr "" -> snd out = ExitMalformed)
  /\ (truthy cls = false -> snd out = ExitMalformed)
  /\ (truthy cls = true -> typeof conf <> "number" -> snd out = ExitMalformed)
  /\ (truthy cls = true -> typeof conf = "number" ->
      text_convertible cls = true ->
      (exists t, snd out = ExitResult t)
      /\ resultEl_hidden (fst out) = false
      /\ dom_text cls = Resolved (resultClass_text (fst out))).
Proof.
  intros Hok J Gc Gf out. subst out.
  assert (Hn : data <> VNull) by (intros ->; discriminate).
  assert (Hu : data <> VUndefined) by (intros ->; discriminate).
  pose proof (field_resolved _ _ _ Gc) as Fc.
  pose proof (field_resolved _ _ _ Gf) as Ff.
  assert (Hfalsy : truthy cls = false ->
                   snd (analyze_settle (Resolved resp) ui) = ExitMalformed).
  { intros T. unfold analyze_settle.
    rewrite (interpret_malformed resp ui data Hok J Hn Hu); [reflexivity |].
    left. rewrite Fc. exact T. }
  split; [| split; [exact Hfalsy | split]].
  - intros [-> | ->]; apply Hfalsy; reflexivity.
  - intros T N. unfold analyze_settle.
    rewrite (interpret_malformed resp ui data Hok J Hn Hu); [reflexivity |].
    right. rewrite Ff. exact N.
  - intros T N V. apply typeof_number in N. destruct N as [c ->].
    unfold analyze_settle.
    assert (T' : truthy (field data "class") = true) by (rewrite Fc; exact T).
    rewrite (interpret_accepted resp ui data c Hok J Hn Hu T' Ff).
    rewrite Fc. destruct (dom_text_convertible _ V) as [shown Hs].
    rewrite (display_result_shown _ shown _ _ _ Hs). simpl.
    split; [eexists; reflexivity | split; [reflexivity | exact Hs]].
Qed.

Lemma C10_numeric_class_witness :
  let resp := {| status := 200; body := Some body_numeric_class |} in
  let data := VObj [("class", VNum 123%float); ("confidence", VNum 0.95%float)] in
  let out := analyze_settle (Resolved resp) loaded_page in
  ok resp = true
  /\ resp_json resp = Resolved data
  /\ get_property data "class" = Resolved (VNum 123%float)
  /\ get_property data "confidence" = Resolved (VNum 0.95%float)
  /\ (exists t, snd out = ExitResult t)
  /\ resultEl_hidden (fst out) = false
  /\ resultClass_text (fst out) = Stringified (VNum 123%float).
Proof.
  intros resp data out.
  assert (J : resp_json resp = Resolved data) by (vm_compute; reflexivity).
  split; [reflexivity |]. split; [exact J |].
  split; [reflexivity |]. split; [reflexivity |].
  destruct (C10_class_checked_by_truthiness resp loaded_page data
              (VNum 123%float) (VNum 0.95%float) eq_refl J eq_refl eq_refl)
    as (_ & _ & _ & H).
  destruct (H eq_refl eq_refl eq_refl) as (Hx & Hv & Hs).
  split; [exact Hx |]. split; [exact Hv |].
  fold out in Hs. vm_compute in Hs. inversion Hs as [Heq].
  vm_compute. reflexivity.
Defined.

(** C2: for every accepted reply, that is, every reply the handler
    displays, the trust tag is decided by the confidence alone, with an
    inclusive lower bound at 0.70: a confidence of at least 0.70 is
    Confident and the status is cleared (no warning); a confidence below
    0.70 is LowConfidence and the low-confidence warning and the explanation
    are shown.  (The witness runs 0.70 and 0.699999.) *)
Theorem C2_trust_by_confidence_threshold
  (resp : Response) (ui : UI) (data : JsValue) (c : float) (t : Trust) :
  resp_json resp = Resolved data ->
  get_property data "confidence" = Resolved (VNum c) ->
  let out := analyze_settle (Resolved resp) ui in
  snd out = ExitResult t ->
  CONFIDENCE_THRESHOLD = 0.70%float
  /\ t = (if (c <? CONFIDENCE_THRESHOLD)%float then LowConfidence else Confident)
  /\ resultEl_hidden (fst out) = false
  /\ ((CONFIDENCE_THRESHOLD <=? c)%float = true ->
      t = Confident
      /\ statusEl_text (fst out) = Text ""
      /\ statusEl_color (fst out) = ""
      /\ explain_hidden (fst out) = explain_hidden ui)
  /\ ((c <? CONFIDENCE_THRESHOLD)%float = true ->
      t = LowConfidence
      /\ statusEl_text (fst out) = Text MSG_LOW_CONFIDENCE
      /\ statusEl_color (fst out) = COLOR_ERROR
      /\ explain_hidden (fst out) = false).
Proof.
  intros J Gf out Hx. subst out.
  destruct (accepted_reply resp ui t Hx)
    as (data' & c' & shown & _ & J' & _ & _ & _ & C & _ & Ht & Hpage).
  rewrite J in J'. inversion J'; subst data'.
  rewrite (field_resolved _ _ _ Gf) in C. inversion C; subst c'.
  rewrite Hpage. unfold trust_of in Ht. unfold page_before_result.
  split; [reflexivity |]. split; [exact Ht |]. split; [reflexivity |]. split.
  - intros Hge. rewrite (leb_true_ltb_false _ _ Hge) in *. subst t.
    repeat split.
  - intros Hlt. rewrite Hlt in *. subst t. repeat split.
Qed.

Lemma C2_threshold_boundary_witness :
  let at_t := {| status := 200; body := Some body_at_threshold |} in
  let below := {| status := 200; body := Some body_below_threshold |} in
  (resp_json at_t
   = Resolved (VObj [("class", VStr "Early blight"); ("confidence", VNum 0.70%float)])
   /\ snd (analyze_settle (Resolved at_t) loaded_page) = ExitResult Confident
   /\ (CONFIDENCE_THRESHOLD <=? 0.70)%float = true
   /\ statusEl_text (fst (analyze_settle (Resolved at_t) loaded_page)) = Text "")
  /\ (resp_json below
      = Resolved (VObj [("class", VStr "Early blight"); ("confidence", VNum 0.699999%float)])
      /\ snd (analyze_settle (Resolved below) loaded_page) = ExitResult LowConfidence
      /\ (0.699999 <? CONFIDENCE_THRESHOLD)%float = true
      /\ statusEl_text (fst (analyze_settle (Resolved below) loaded_page))
         = Text MSG_LOW_CONFIDENCE).
Proof.
  intros at_t below.
  assert (J1 : resp_json at_t
               = Resolved (VObj [("class", VStr "Early blight");
                                 ("confidence", VNum 0.70%float)]))
    by (vm_compute; reflexivity).
  assert (J2 : resp_json below
               = Resolved (VObj [("class", VStr "Early blight");
                                 ("confidence", VNum 0.699999%float)]))
    by (vm_compute; reflexivity).
  assert (X1 : snd (analyze_settle (Resolved at_t) loaded_page) = ExitResult Confident)
    by (vm_compute; reflexivity).
  assert (X2 : snd (analyze_settle (Resolved below) loaded_page)
               = ExitResult LowConfidence)
    by (vm_compute; reflexivity).
  split.
  - split; [exact J1 |]. split; [exact X1 |]. split; [reflexivity |].
    apply (C2_trust_by_confidence_threshold at_t loaded_page _ 0.70%float
             Confident J1 eq_refl X1).
    reflexivity.
  - split; [exact J2 |]. split; [exact X2 |]. split; [reflexivity |].
    apply (C2_trust_by_confidence_threshold below loaded_page _ 0.699999%float
             LowConfidence J2 eq_refl X2).
    reflexivity.
Defined.

(** ** Server errors *)

Lemma JSON_parse_empty : JSON_parse "" = None.
Proof. reflexivity. Qed.

Lemma JSON_parse_server_error_text : JSON_parse MSG_SERVER_ERROR = None.
Proof. vm_compute. reflexivity. Qed.

Lemma string_eqb_empty (s : string) :
  String.eqb s "" = true -> s = "".
Proof. apply String.eqb_eq. Qed.

(** What [setStatus(json.detail || txt, true)] shows, or that it throws. *)
Lemma setStatus_detail_or_text (detail : JsValue) (txt : string) (ui : UI) :
  String.eqb txt "" = false ->
  setStatus (js_or detail (VStr txt)) true ui
  = if truthy detail then
      match dom_text detail with
      | Resolved shown => Resolved (write_status shown true ui)
      | Rejected e => Rejected e
      end
    else Resolved (setStatusText txt true ui).
Proof.
  intros E. unfold js_or at 1.
  destruct (truthy detail) eqn:T.
  - unfold setStatus, js_or. rewrite T. reflexivity.
  - rewrite setStatus_of_string. reflexivity.
Qed.

(** The text [report_server_error] leaves in the status line. *)
Lemma report_server_error_text (txt : string) (ui : UI) :
  statusEl_text (report_server_error txt ui) =
  match JSON_parse txt with
  | Some VNull | Some VUndefined | None =>
      if String.eqb txt "" then Text MSG_SERVER_ERROR else Text txt
  | Some json =>
      if truthy (field json "detail") then
        match dom_text (field json "detail") with
        | Resolved shown => shown
        | Rejected _ => Text txt
        end
      else Text txt
  end.
Proof.
  unfold report_server_error.
  destruct (String.eqb txt "") eqn:E.
  - apply string_eqb_empty in E. subst txt. rewrite JSON_parse_empty.
    reflexivity.
  - destruct (JSON_parse txt) as [json |]; [| reflexivity].
    destruct (get_property json "detail") as [detail | e] eqn:G.
    + rewrite (setStatus_detail_or_text detail txt ui E).
      rewrite (field_resolved _ _ _ G).
      destruct json; try discriminate G;
        destruct (truthy detail); try reflexivity;
        destruct (dom_text detail); reflexivity.
    + destruct json; try discriminate; try reflexivity.
      simpl in G. destruct (own_property props "detail"); discriminate.
Qed.

Lemma report_server_error_frame (txt : string) (ui : UI) :
  statusEl_color (report_server_error txt ui) = COLOR_ERROR
  /\ resultEl_hidden (report_server_error txt ui) = resultEl_hidden ui
  /\ spinner_hidden (report_server_error txt ui) = spinner_hidden ui
  /\ fileInput_file (report_server_error txt ui) = fileInput_file ui.
Proof.
  unfold report_server_error, setStatus.
  destruct (JSON_parse txt) as [json |]; [| repeat split].
  destruct (get_property json "detail"); [| repeat split].
  destruct (dom_text _); repeat split.
Qed.

(** C7, as stated, fails: an HTTP 500 with an empty body does not parse, and
    the message shown is the fixed text "Server error", not the raw body
    text, which is empty. *)
Lemma C7_empty_body_shows_fixed_text :
  let resp := {| status := 500; body := Some "" |} in
  let out := analyze_settle (Resolved resp) loaded_page in
  ok resp = false
  /\ JSON_parse "" = None
  /\ snd out = ExitServerError
  /\ statusEl_text (fst out) = Text "Server error"
  /\ statusEl_text (fst out) <> Text "".
Proof.
  repeat split; try (vm_compute; reflexivity). vm_compute. discriminate.
Qed.

(** C7, amended: every non-2xx response ends the attempt in the Error state
    as a server error, with the spinner hidden and no result shown by it.
    The message is the body's [detail] when the body parses as JSON and has
    a truthy [detail] that converts to text; otherwise it is the raw body
    text; and it is the fixed text "Server error" when the body is empty or
    cannot be read.  (The witness is HTTP 500 with
    {"detail":"model unavailable"}.) *)
Theorem C7_server_error_message (resp : Response) (ui : UI) :
  ok resp = false ->
  let out := analyze_settle (Resolved resp) ui in
  snd out = ExitServerError
  /\ state_after_attempt (snd out) = Error
  /\ statusEl_color (fst out) = COLOR_ERROR
  /\ spinner_hidden (fst out) = true
  /\ resultEl_hidden (fst out) = resultEl_hidden ui
  /\ statusEl_text (fst out) =
     match body resp with
     | None => Text MSG_SERVER_ERROR
     | Some txt =>
         match JSON_parse txt with
         | Some VNull | Some VUndefined | None =>
             if String.eqb txt "" then Text MSG_SERVER_ERROR else Text txt
         | Some json =>
             if truthy (field json "detail") then
               match dom_text (field json "detail") with
               | Resolved shown => shown
               | Rejected _ => Text txt
               end
             else Text txt
         end
     end.
Proof.
  intros Hok out. subst out. unfold analyze_settle.
  rewrite (interpret_not_ok resp ui Hok).
  set (txt := match body resp with Some s => s | None => MSG_SERVER_ERROR end).
  destruct (report_server_error_frame txt ui) as (Hc & Hr & _ & _).
  cbn [fst snd].
  split; [reflexivity |]. split; [reflexivity |].
  split; [exact Hc |]. split; [reflexivity |]. split; [exact Hr |].
  change (statusEl_text (showSpinner false (report_server_error txt ui)))
    with (statusEl_text (report_server_error txt ui)).
  rewrite report_server_error_text. subst txt.
  destruct (body resp) as [s |]; [reflexivity |].
  rewrite JSON_parse_server_error_text. reflexivity.
Qed.

Lemma C7_model_unavailable_witness :
  let resp := {| status := 500; body := Some body_model_unavailable |} in
  let out := analyze_settle (Resolved resp) loaded_page in
  ok resp = false
  /\ JSON_parse body_model_unavailable
     = Some (VObj [("detail", VStr "model unavailable")])
  /\ state_after_attempt (snd out) = Error
  /\ statusEl_text (fst out) = Text "model unavailable".
Proof.
  intros resp out.
  assert (P : JSON_parse body_model_unavailable
              = Some (VObj [("detail", VStr "model unavailable")]))
    by (vm_compute; reflexivity).
  destruct (C7_server_error_message resp loaded_page eq_refl)
    as (_ & Hstate & _ & _ & _ & Htext).
  split; [reflexivity |]. split; [exact P |]. split; [exact Hstate |].
  subst out. rewrite Htext. cbn [body resp]. rewrite P. reflexivity.
Defined.

(** ** The bounded call *)

Lemma run_fetch_cons (ev : LoopEvent) (events : list LoopEvent) (c : FetchCall) :
  run_fetch (ev :: events) c = run_fetch events (deliver ev c).
Proof. reflexivity. Qed.

(** Once the call has settled and its timer is gone, no delivery changes it. *)
Lemma deliver_closed (ev : LoopEvent) (c : FetchCall) :
  in_flight c = false -> timer c = None -> deliver ev c = c.
Proof.
  intros F T. destruct ev; unfold deliver; rewrite ?T, ?F; reflexivity.
Qed.

Lemma run_fetch_closed (events : list LoopEvent) (c : FetchCall) :
  in_flight c = false -> timer c = None -> run_fetch events c = c.
Proof.
  intros F T. induction events as [| ev events IH]; [reflexivity |].
  rewrite run_fetch_cons, (deliver_closed ev c F T). exact IH.
Qed.

Lemma deliver_requests (ev : LoopEvent) (c : FetchCall) :
  requests (deliver ev c) = requests c.
Proof.
  destruct ev; unfold deliver.
  - destruct (timer c); reflexivity.
  - destruct (in_flight c); reflexivity.
  - destruct (in_flight c); reflexivity.
Qed.

(** No delivery makes the call issue another request. *)
Lemma run_fetch_requests (events : list LoopEvent) (c : FetchCall) :
  requests (run_fetch events c) = requests c.
Proof.
  revert c. induction events as [| ev events IH]; intros c; [reflexivity |].
  rewrite run_fetch_cons, IH. apply deliver_requests.
Qed.




(** ** The analyze handler, stage by stage *)

Lemma analyze_begin_valid (ui : UI) (f : File) :
  fileInput_file ui = Some f -> validateFile (Some f) = None ->
  analyze_begin ui
  = (setStatusText MSG_CHECKING false
       (setStatusText "" false (resetResult ui)), Some f).
Proof.
  intros Hf Hv. unfold analyze_begin.
  change (fileInput_file (setStatusText "" false (resetResult ui)))
    with (fileInput_file ui).
  rewrite Hf, Hv. reflexivity.
Qed.

Lemma analyze_begin_invalid (ui : UI) (msg : string) :
  validateFile (fileInput_file ui) = Some msg ->
  analyze_begin ui
  = (setStatusText msg true (setStatusText "" false (resetResult ui)), None).
Proof.
  intros Hv. unfold analyze_begin.
  change (fileInput_file (setStatusText "" false (resetResult ui)))
    with (fileInput_file ui).
  rewrite Hv. reflexivity.
Qed.

Lemma onAnalyzeClick_invalid (events : list LoopEvent) (ui : UI) (msg : string) :
  validateFile (fileInput_file ui) = Some msg ->
  onAnalyzeClick events ui
  = {| page_after :=
         setStatusText msg true (setStatusText "" false (resetResult ui));
       exit := ExitInvalid; page_at_send := None; call := None |}.
Proof.
  intros Hv. unfold onAnalyzeClick.
  rewrite (analyze_begin_invalid ui msg Hv). reflexivity.
Qed.

Lemma on_failure_exit (e : JsError) (ui : UI) :
  snd (on_failure e ui) = ExitTimeout \/ snd (on_failure e ui) = ExitNetworkFailure.
Proof.
  unfold on_failure. destruct (String.eqb (error_name e) "AbortError"); simpl; auto.
Qed.

Lemma interpret_exit (resp : Response) (ui ui' : UI) (x : Exit) :
  interpret resp ui = Return ui' x ->
  x = ExitServerError \/ x = ExitMalformed \/ exists t, x = ExitResult t.
Proof.
  unfold interpret, display_result. intros H.
  repeat (break_match_in H; try discriminate);
    inversion H; subst; eauto.
Qed.

(** Once the call has settled the attempt ends in one of the five reported
    outcomes. *)
Lemma analyze_settle_exit (outcome : Settled Response) (ui : UI) :
  snd (analyze_settle outcome ui) <> ExitInvalid.
Proof.
  unfold analyze_settle. destruct outcome as [resp | e].
  - destruct (interpret resp ui) as [ui' x | ui' e] eqn:I.
    + apply interpret_exit in I. simpl.
      destruct I as [-> | [-> | [t ->]]]; discriminate.
    + destruct (on_failure_exit e ui') as [-> | ->]; discriminate.
  - destruct (on_failure_exit e ui) as [-> | ->]; discriminate.
Qed.

(** *** An attempt on a selected file that passes validation *)

Section ValidAttempt.

Variable events : list LoopEvent.
Variable ui : UI.
Variable f : File.
Hypothesis selected : fileInput_file ui = Some f.
Hypothesis valid : validateFile (Some f) = None.

Lemma onAnalyzeClick_valid :
  let a := onAnalyzeClick events ui in
  let c := run_fetch events (fetchWithTimeout API_URL (analyze_options f)) in
  page_at_send a = Some (page_sent ui f)
  /\ call a = Some c
  /\ match settlements c with
     | [] => page_after a = page_sent ui f /\ exit a = ExitPending
     | outcome :: _ =>
         page_after a = fst (analyze_settle outcome (page_sent ui f))
         /\ exit a = snd (analyze_settle outcome (page_sent ui f))
     end.
Proof.
  intros a c. subst a c. unfold onAnalyzeClick.
  rewrite (analyze_begin_valid ui f selected valid). fold (page_sent ui f).
  destruct (settlements (run_fetch events (fetchWithTimeout API_URL (analyze_options f))))
    as [| outcome more].
  - repeat split.
  - destruct (analyze_settle outcome (page_sent ui f)) as [ui3 x].
    repeat split.
Qed.


(** C6: on a valid file whose ratio is below 0.18 the handler hands the
    warning to the status line and shows the explanation, and still goes on
    to the request with the spinner on; no ratio keeps the request from
    going out; a file that fails to decode scores 0 instead of failing the
    attempt, and so takes the same warned path. *)
Theorem C6_low_ratio_warns_without_blocking :
  let a := onAnalyzeClick events ui in
  GREEN_RATIO_THRESHOLD = 0.18%float
  /\ (exists sent c,
        page_at_send a = Some sent /\ call a = Some c
        /\ requests c = [ {| req_resource := API_URL; req_method := "POST";
                             req_body := [("file", f)] |} ]
        /\ statusEl_text sent = Text MSG_ANALYZING
        /\ spinner_hidden sent = false
        /\ exit a <> ExitInvalid
        /\ ((greenRatioHeuristic f <? GREEN_RATIO_THRESHOLD)%float = true ->
            status_history sent
            = (Text MSG_ANALYZING, false) :: (Text MSG_NOT_LEAF, true)
                :: (Text MSG_CHECKING, false) :: (Text "", false)
                :: status_history ui
            /\ explain_hidden sent = false))
  /\ (decoded f = None ->
      greenRatioHeuristic f = 0%float
      /\ (greenRatioHeuristic f <? GREEN_RATIO_THRESHOLD)%float = true).
Proof.
  intros a.
  destruct onAnalyzeClick_valid as (Hsent & Hcall & Hout).
  fold a in Hsent, Hcall, Hout.
  split; [reflexivity |]. split.
  - exists (page_sent ui f),
      (run_fetch events (fetchWithTimeout API_URL (analyze_options f))).
    split; [exact Hsent |]. split; [exact Hcall |].
    split; [rewrite run_fetch_requests; reflexivity |].
    split; [reflexivity |]. split; [reflexivity |]. split.
    + destruct (settlements (run_fetch events _)) as [| outcome more].
      * destruct Hout as [_ ->]. discriminate.
      * destruct Hout as [_ ->]. apply analyze_settle_exit.
    + intros Hlow. unfold page_sent, analyze_send. rewrite Hlow.
      split; reflexivity.
  - intros Hd. unfold greenRatioHeuristic. rewrite Hd.
    split; reflexivity.
Qed.

End ValidAttempt.


Lemma C6_dark_image_witness :
  let a := onAnalyzeClick [] (page_with dark_file) in
  fileInput_file (page_with dark_file) = Some dark_file
  /\ validateFile (Some dark_file) = None
  /\ (greenRatioHeuristic dark_file <? GREEN_RATIO_THRESHOLD)%float = true
  /\ exists sent c,
       page_at_send a = Some sent /\ call a = Some c
       /\ List.length (requests c) = 1%nat
       /\ explain_hidden sent = false
       /\ In (Text MSG_NOT_LEAF, true) (status_history sent).
Proof.
  intros a.
  assert (Hf : fileInput_file (page_with dark_file) = Some dark_file)
    by (vm_compute; reflexivity).
  assert (Hv : validateFile (Some dark_file) = None) by reflexivity.
  assert (Hlow : (greenRatioHeuristic dark_file <? GREEN_RATIO_THRESHOLD)%float = true)
    by (vm_compute; reflexivity).
  split; [exact Hf |]. split; [exact Hv |]. split; [exact Hlow |].
  destruct (C6_low_ratio_warns_without_blocking [] (page_with dark_file) dark_file Hf Hv)
    as (_ & (sent & c & Hsent & Hcall & Hreq & _ & _ & _ & Hwarn) & _).
  destruct (Hwarn Hlow) as [Hhist Hexp].
  exists sent, c.
  split; [exact Hsent |]. split; [exact Hcall |].
  split; [rewrite Hreq; reflexivity |]. split; [exact Hexp |].
  rewrite Hhist. right. left. reflexivity.
Defined.

(** ** What the handlers leave untouched *)

Lemma analyze_settle_file (outcome : Settled Response) (ui : UI) :
  fileInput_file (fst (analyze_settle outcome ui)) = fileInput_file ui.
Proof.
  unfold analyze_settle. destruct outcome as [resp | e].
  - destruct (ok resp) eqn:Hok.
    + unfold interpret, display_result, on_failure. rewrite Hok. simpl.
      repeat (break_inner; simpl); reflexivity.
    + rewrite (interpret_not_ok resp ui Hok). simpl.
      apply report_server_error_frame.
  - unfold on_failure. break_match; reflexivity.
Qed.

(** Only the result exit makes a hidden result panel visible. *)
Lemma analyze_settle_result (outcome : Settled Response) (ui : UI) :
  resultEl_hidden ui = true ->
  resultEl_hidden (fst (analyze_settle outcome ui)) = false ->
  exists t, snd (analyze_settle outcome ui) = ExitResult t.
Proof.
  intros Hid. unfold analyze_settle. destruct outcome as [resp | e].
  - destruct (ok resp) eqn:Hok.
    + unfold interpret, display_result, on_failure. rewrite Hok. simpl.
      repeat (break_inner; simpl);
        intros H; try (rewrite Hid in H; discriminate); eexists; reflexivity.
    + rewrite (interpret_not_ok resp ui Hok). simpl.
      destruct (report_server_error_frame
                  (match body resp with Some s => s | None => MSG_SERVER_ERROR end) ui)
        as (_ & Hr & _ & _).
      rewrite Hr, Hid. discriminate.
  - unfold on_failure. break_match; simpl; rewrite Hid; discriminate.
Qed.

Lemma page_sent_result_hidden (ui : UI) (f : File) :
  resultEl_hidden (page_sent ui f) = true.
Proof.
  unfold page_sent, analyze_send.
  destruct (greenRatioHeuristic f <? GREEN_RATIO_THRESHOLD)%float; reflexivity.
Qed.

Lemma page_sent_file (ui : UI) (f : File) :
  fileInput_file (page_sent ui f) = fileInput_file ui.
Proof.
  unfold page_sent, analyze_send.
  destruct (greenRatioHeuristic f <? GREEN_RATIO_THRESHOLD)%float; reflexivity.
Qed.

Lemma onFileChange_result_hidden (ui : UI) :
  resultEl_hidden (fst (onFileChange ui)) = true.
Proof.
  unfold onFileChange. repeat break_match; reflexivity.
Qed.

(** A file the validator passes is a file. *)
Lemma validateFile_none_selected (file : option File) :
  validateFile file = None -> exists f, file = Some f.
Proof.
  destruct file as [f |]; [eexists; reflexivity | discriminate].
Qed.

(** The analyze handler never writes the file input. *)
Lemma onAnalyzeClick_file (events : list LoopEvent) (ui : UI) :
  fileInput_file (page_after (onAnalyzeClick events ui)) = fileInput_file ui.
Proof.
  destruct (validateFile (fileInput_file ui)) as [msg |] eqn:Hv.
  - rewrite (onAnalyzeClick_invalid events ui msg Hv). reflexivity.
  - destruct (validateFile_none_selected _ Hv) as [f Hf].
    rewrite Hf in Hv.
    destruct (onAnalyzeClick_valid events ui f Hf Hv) as (_ & _ & Hout).
    destruct (settlements (run_fetch events _)) as [| outcome more].
    + destruct Hout as [-> _]. apply page_sent_file.
    + destruct Hout as [-> _]. rewrite analyze_settle_file. apply page_sent_file.
Qed.

(** ** The pipeline *)

Lemma run_snoc (evs : list UserEvent) (ev : UserEvent) (p : Pipeline) :
  run (evs ++ [ev])%list p = step ev (run evs p).
Proof. unfold run. rewrite fold_left_app. reflexivity. Qed.

(** After any handler, a visible result means the handler took the result
    exit. *)
Lemma step_result_only_when_ready (ev : UserEvent) (p : Pipeline) :
  resultEl_hidden (page (step ev p)) = false -> state (step ev p) = ResultReady.
Proof.
  destruct ev as [picked | events]; unfold step.
  - pose proof (onFileChange_result_hidden (setFile picked (page p))) as H.
    destruct (onFileChange (setFile picked (page p))) as [ui s].
    simpl in *. rewrite H. discriminate.
  - cbn [page state].
    destruct (validateFile (fileInput_file (page p))) as [msg |] eqn:Hv.
    + rewrite (onAnalyzeClick_invalid events (page p) msg Hv). simpl. discriminate.
    + destruct (validateFile_none_selected _ Hv) as [f Hf].
      rewrite Hf in Hv.
      destruct (onAnalyzeClick_valid events (page p) f Hf Hv) as (_ & _ & Hout).
      destruct (settlements (run_fetch events _)) as [| outcome more].
      * destruct Hout as [-> _]. rewrite page_sent_result_hidden. discriminate.
      * destruct Hout as [-> ->]. intros H.
        destruct (analyze_settle_result outcome _ (page_sent_result_hidden _ _) H)
          as [t ->].
        reflexivity.
Qed.

Lemma reachable_result_only_when_ready (p : Pipeline) :
  reachable p -> resultEl_hidden (page p) = false -> state p = ResultReady.
Proof.
  intros (p0 & evs & (_ & _ & Hfresh) & ->).
  destruct evs as [| ev evs] using rev_ind.
  - simpl. rewrite Hfresh. discriminate.
  - rewrite run_snoc. apply step_result_only_when_ready.
Qed.

(** ** The file selection *)

Lemma onFileChange_selection (ui : UI) :
  (snd (onFileChange ui) = SelectionAccepted ->
   fileInput_file (fst (onFileChange ui)) = fileInput_file ui
   /\ validateFile (fileInput_file ui) = None)
  /\ (snd (onFileChange ui) <> SelectionAccepted ->
      fileInput_file (fst (onFileChange ui)) = None).
Proof.
  unfold onFileChange.
  change (fileInput_file (setStatusText "" false (resetResult ui)))
    with (fileInput_file ui).
  destruct (validateFile (fileInput_file ui)) as [msg |] eqn:Hv.
  - simpl. split; [discriminate | reflexivity].
  - destruct (fileInput_file ui) as [f |] eqn:Hf; [| discriminate].
    destruct (readImageDimensions f) as [[width height] | e].
    + destruct ((width <? MIN_DIM) || (height <? MIN_DIM))%N; simpl.
      * split; [discriminate | reflexivity].
      * split; [intros _; split; [exact Hf | reflexivity] | intros H; contradiction].
    + simpl. split; [discriminate | reflexivity].
Qed.

(** Whatever stays selected has passed the validator. *)
Lemma step_selection_valid (ev : UserEvent) (p : Pipeline) :
  (forall f, fileInput_file (page p) = Some f -> validateFile (Some f) = None) ->
  forall f, fileInput_file (page (step ev p)) = Some f -> validateFile (Some f) = None.
Proof.
  intros Inv f. destruct ev as [picked | events]; unfold step.
  - destruct (onFileChange_selection (setFile picked (page p))) as [Hacc Hrej].
    destruct (onFileChange (setFile picked (page p))) as [ui s]. simpl in *.
    destruct s; try (rewrite Hrej by discriminate; discriminate).
    destruct (Hacc eq_refl) as [-> Hv]. intros ->. exact Hv.
  - cbn [page]. rewrite onAnalyzeClick_file. apply Inv.
Qed.

Lemma reachable_selection_valid (p : Pipeline) :
  reachable p ->
  forall f, fileInput_file (page p) = Some f -> validateFile (Some f) = None.
Proof.
  intros (p0 & evs & (_ & Hnone & _) & ->).
  induction evs as [| ev evs IH] using rev_ind.
  - simpl. intros f Hf. rewrite Hnone in Hf. discriminate.
  - rewrite run_snoc. apply step_selection_valid. exact IH.
Qed.

Lemma onAnalyzeClick_exit_invalid (events : list LoopEvent) (ui : UI) :
  exit (onAnalyzeClick events ui) = ExitInvalid <->
  validateFile (fileInput_file ui) <> None.
Proof.
  destruct (validateFile (fileInput_file ui)) as [msg |] eqn:Hv.
  - rewrite (onAnalyzeClick_invalid events ui msg Hv). simpl.
    split; [discriminate | reflexivity].
  - destruct (validateFile_none_selected _ Hv) as [f Hf].
    rewrite Hf in Hv.
    destruct (onAnalyzeClick_valid events ui f Hf Hv) as (_ & _ & Hout).
    split; [| intros H; contradiction].
    intros Hx. exfalso.
    destruct (settlements (run_fetch events _)) as [| outcome more].
    + destruct Hout as [_ Hout]. rewrite Hout in Hx. discriminate.
    + destruct Hout as [_ Hout]. rewrite Hout in Hx.
      exact (analyze_settle_exit _ _ Hx).
Qed.

(** C9: an error of the validator or of the dimension probe, in the
    selection handler, empties the file input and leaves the pipeline Idle,
    ready for another pick; an attempt that ends on the validator's error
    leaves the input empty as well.  The analyze handler never writes the
    file input: after a timeout, a network failure, a server error or a
    malformed reply the validated file is still selected, so the attempt can
    be repeated as it is. *)
Theorem C9_errors_and_the_file_selection (p : Pipeline) :
  reachable p ->
  (forall picked,
     let out := onFileChange (setFile picked (page p)) in
     snd out <> SelectionAccepted ->
     fileInput_file (fst out) = None
     /\ state_after_selection (snd out) = Idle)
  /\ (forall events,
        let a := onAnalyzeClick events (page p) in
        fileInput_file (page_after a) = fileInput_file (page p)
        /\ (exit a = ExitInvalid ->
            fileInput_file (page_after a) = None
            /\ state_after_attempt (exit a) = Idle)
        /\ (exit a = ExitTimeout \/ exit a = ExitNetworkFailure
            \/ exit a = ExitServerError \/ exit a = ExitMalformed ->
            state_after_attempt (exit a) = Error
            /\ exists f, fileInput_file (page_after a) = Some f
                         /\ validateFile (Some f) = None)).
Proof.
  intros Hreach.
  pose proof (reachable_selection_valid p Hreach) as Inv.
  split.
  - intros picked out Hrej. subst out. split.
    + apply onFileChange_selection. exact Hrej.
    + destruct (snd (onFileChange (setFile picked (page p))));
        [contradiction | reflexivity | reflexivity | reflexivity].
  - intros events a. subst a.
    split; [apply onAnalyzeClick_file |]. split.
    + intros Hx. rewrite Hx. split; [| reflexivity].
      rewrite onAnalyzeClick_file.
      apply onAnalyzeClick_exit_invalid in Hx.
      destruct (fileInput_file (page p)) as [f |] eqn:Hf; [| reflexivity].
      exfalso. apply Hx. apply Inv. reflexivity.
    + intros Herr. split.
      * destruct Herr as [-> | [-> | [-> | ->]]]; reflexivity.
      * rewrite onAnalyzeClick_file.
        destruct (validateFile (fileInput_file (page p))) as [msg |] eqn:Hv.
        -- exfalso.
           assert (Hx : exit (onAnalyzeClick events (page p)) = ExitInvalid).
           { apply onAnalyzeClick_exit_invalid. rewrite Hv. discriminate. }
           rewrite Hx in Herr.
           destruct Herr as [H | [H | [H | H]]]; discriminate.
        -- destruct (validateFile_none_selected _ Hv) as [f Hf].
           exists f. rewrite Hf in Hv. split; assumption.
Qed.

Lemma C9_selection_witness :
  let p := step (FileSelected (Some leaf_file)) loaded in
  let timed_out := onAnalyzeClick [TimerFires] (page p) in
  let rejected := onFileChange (setFile (Some broken_file) (page p)) in
  reachable p
  /\ (snd rejected = SelectionUnreadable /\ fileInput_file (fst rejected) = None)
  /\ (exit timed_out = ExitTimeout
      /\ fileInput_file (page_after timed_out) = Some leaf_file).
Proof.
  intros p timed_out rejected.
  assert (Hreach : reachable p).
  { exists loaded, [FileSelected (Some leaf_file)].
    split; [repeat split | reflexivity]. }
  destruct (C9_errors_and_the_file_selection p Hreach) as [Hsel Han].
  split; [exact Hreach |]. split.
  - assert (Hs : snd rejected = SelectionUnreadable) by (vm_compute; reflexivity).
    split; [exact Hs |].
    apply (Hsel (Some broken_file)). fold rejected. rewrite Hs. discriminate.
  - split; [vm_compute; reflexivity |].
    destruct (Han [TimerFires]) as (Hframe & _ & _).
    fold timed_out in Hframe. rewrite Hframe. vm_compute. reflexivity.
Defined.

(* ================================================================= *)
(** * Part III: further properties of the script *)
(* ================================================================= *)

(** Opens the conjunctions and existentials of [H] and merges equal
    selections. *)
Ltac unpack H :=
  decompose [ex and] H;
  repeat match goal with
         | E : Some _ = Some _ |- _ => inversion E; subst; clear E
         | E1 : ?x = Some _, E2 : ?x = Some _ |- _ =>
             rewrite E1 in E2; inversion E2; subst; clear E2
         end.

(** ** The validator, rule by rule *)

(** X1: [validateFile] returns [null] exactly for a present file whose type
    starts with "image/" and whose size is at most 5 MiB (the limit itself
    passes); otherwise it returns the message of the first rule that fails,
    in the order missing file, type, size. *)
Theorem X1_validateFile_first_failing_rule (file : option File) :
  (validateFile file = None <->
   exists f, file = Some f /\ String.prefix "image/" (type f) = true
             /\ (size f <= 5 * 1024 * 1024)%N)
  /\ (validateFile file = Some MSG_NO_FILE <-> file = None)
  /\ (validateFile file = Some MSG_NOT_IMAGE <->
      exists f, file = Some f /\ String.prefix "image/" (type f) = false)
  /\ (validateFile file = Some MSG_TOO_LARGE <->
      exists f, file = Some f /\ String.prefix "image/" (type f) = true
                /\ (5 * 1024 * 1024 < size f)%N).
Proof.
  destruct file as [f |].
  - unfold validateFile.
    destruct (String.prefix "image/" (type f)) eqn:P; simpl.
    + change MAX_SIZE with (5 * 1024 * 1024)%N.
      destruct (N.ltb_spec (5 * 1024 * 1024) (size f)) as [L | L];
        repeat split; intros H; try discriminate; try reflexivity;
        try (exists f; auto; fail);
        destruct H as (g & E & H); inversion E; subst g;
        first [congruence | destruct H; lia].
    + repeat split; intros H; try discriminate; try reflexivity;
        try (exists f; auto; fail);
        destruct H as (g & E & H); inversion E; subst g;
        first [congruence | destruct H; congruence].
  - simpl. repeat split; intros H; try discriminate; try reflexivity;
      destruct H as (g & E & _); discriminate.
Qed.

(** ** The selection handler *)

Lemma onFileChange_cases (ui : UI) :
  let cleared := setStatusText "" false (resetResult ui) in
  match validateFile (fileInput_file ui), fileInput_file ui with
  | Some msg, _ =>
      onFileChange ui
      = (clearFile (setStatusText msg true cleared), SelectionInvalid)
  | None, None => False
  | None, Some f =>
      match decoded f with
      | None =>
          onFileChange ui
          = (clearFile (setStatusText MSG_UNREADABLE true cleared),
             SelectionUnreadable)
      | Some img =>
          if ((naturalWidth img <? MIN_DIM) || (naturalHeight img <? MIN_DIM))%N
          then onFileChange ui
               = (clearFile (setStatusText MSG_TOO_SMALL true cleared),
                  SelectionTooSmall)
          else onFileChange ui = (showPreview f cleared, SelectionAccepted)
      end
  end.
Proof.
  intros cleared. subst cleared. unfold onFileChange, readImageDimensions.
  change (fileInput_file (setStatusText "" false (resetResult ui)))
    with (fileInput_file ui).
  destruct (validateFile (fileInput_file ui)) as [msg |] eqn:Hv; [reflexivity |].
  destruct (fileInput_file ui) as [f |]; [| discriminate].
  destruct (decoded f) as [img |]; [| reflexivity].
  destruct ((naturalWidth img <? MIN_DIM) || (naturalHeight img <? MIN_DIM))%N;
    reflexivity.
Qed.

Lemma min_dim_test (w h : N) :
  ((w <? MIN_DIM) || (h <? MIN_DIM))%N = false <-> (64 <= w /\ 64 <= h)%N.
Proof.
  change MIN_DIM with 64%N. rewrite orb_false_iff, !N.ltb_ge. reflexivity.
Qed.

(** X2: the [change] handler accepts a pick exactly when the validator
    passes it, it decodes, and both its natural width and height are at
    least 64 (64 itself is accepted); a valid file that does not decode is
    Unreadable; a valid, decodable file with a side below 64 is TooSmall;
    everything else is the validator's rejection. *)
Theorem X2_selection_outcome (ui : UI) :
  let s := snd (onFileChange ui) in
  (s = SelectionAccepted <->
   exists f img, fileInput_file ui = Some f /\ validateFile (Some f) = None
                 /\ decoded f = Some img
                 /\ (64 <= naturalWidth img)%N /\ (64 <= naturalHeight img)%N)
  /\ (s = SelectionUnreadable <->
      exists f, fileInput_file ui = Some f /\ validateFile (Some f) = None
                /\ decoded f = None)
  /\ (s = SelectionTooSmall <->
      exists f img, fileInput_file ui = Some f /\ validateFile (Some f) = None
                    /\ decoded f = Some img
                    /\ ((naturalWidth img < 64)%N \/ (naturalHeight img < 64)%N))
  /\ (s = SelectionInvalid <-> validateFile (fileInput_file ui) <> None).
Proof.
  intros s. subst s. pose proof (onFileChange_cases ui) as C. cbv zeta in C.
  destruct (validateFile (fileInput_file ui)) as [msg |] eqn:Hv.
  - rewrite C. cbn [fst snd]. repeat split; intros H; try discriminate;
      try reflexivity; unpack H; congruence.
  - destruct (fileInput_file ui) as [f |] eqn:Hf; [| contradiction].
    destruct (decoded f) as [img |] eqn:Hd.
    + destruct ((naturalWidth img <? MIN_DIM) || (naturalHeight img <? MIN_DIM))%N
        eqn:Hdim; rewrite C; cbn [fst snd].
      * assert (Hsmall : (naturalWidth img < 64)%N \/ (naturalHeight img < 64)%N).
        { apply orb_true_iff in Hdim. change MIN_DIM with 64%N in Hdim.
          rewrite !N.ltb_lt in Hdim. exact Hdim. }
        repeat split; intros H; try discriminate; try reflexivity;
          try (exists f, img; auto; fail);
          unpack H; first [congruence | lia].
      * apply min_dim_test in Hdim.
        repeat split; intros H; try discriminate; try reflexivity;
          try (exists f, img; tauto);
          unpack H; first [congruence | lia].
    + rewrite C. cbn [fst snd].
      repeat split; intros H; try discriminate; try reflexivity;
        try (exists f; auto; fail);
        unpack H; congruence.
Qed.







(** ** The bounded call, delivery by delivery *)

Lemma deliver_first (ev : LoopEvent) (resource : string) (o : Options) :
  let c := deliver ev (fetchWithTimeout resource o) in
  in_flight c = false /\ timer c = None.
Proof. destruct ev; split; reflexivity. Qed.

Lemma run_fetch_first (ev : LoopEvent) (rest : list LoopEvent)
  (resource : string) (o : Options) :
  run_fetch (ev :: rest) (fetchWithTimeout resource o)
  = deliver ev (fetchWithTimeout resource o).
Proof.
  rewrite run_fetch_cons.
  destruct (deliver_first ev resource o) as [F T].
  apply run_fetch_closed; assumption.
Qed.

(** X5: a call of [fetchWithTimeout] is decided by the first delivery alone.
    With nothing delivered it is pending with its timer armed (the given
    [timeout], or 15000); a response first resolves it and a transfer
    failure first rejects it with a TypeError, both clearing the timer
    without ever raising the abort signal; the timer first aborts it.  The
    request list is the single request it was started with, carrying the
    caller's method and body. *)
Theorem X5_call_decided_by_first_delivery
  (resource : string) (o : Options) (events : list LoopEvent) :
  let c := run_fetch events (fetchWithTimeout resource o) in
  requests c = [ {| req_resource := resource; req_method := opt_method o;
                    req_body := opt_body o |} ]
  /\ match events with
     | [] =>
         settlements c = [] /\ in_flight c = true /\ signal_aborted c = false
         /\ timer c = Some (match opt_timeout o with
                            | Some t => t
                            | None => 15000%N
                            end)
     | TimerFires :: _ =>
         settlements c = [Rejected AbortError] /\ in_flight c = false
         /\ signal_aborted c = true /\ timer c = None
     | ResponseArrives resp :: _ =>
         settlements c = [Resolved resp] /\ in_flight c = false
         /\ signal_aborted c = false /\ timer c = None
     | TransferFails :: _ =>
         settlements c = [Rejected TypeError] /\ in_flight c = false
         /\ signal_aborted c = false /\ timer c = None
     end.
Proof.
  intros c. subst c. split.
  - rewrite run_fetch_requests. reflexivity.
  - destruct events as [| ev rest].
    + repeat split.
    + rewrite run_fetch_first. destruct ev; repeat split.
Qed.

(** ** Attempts *)

(** X6: an analyze attempt is decided by the first delivery: whatever the
    event loop delivers after it changes neither the page, nor the exit, nor
    the call. *)
Theorem X6_attempt_ignores_later_deliveries
  (ev : LoopEvent) (rest : list LoopEvent) (ui : UI) :
  onAnalyzeClick (ev :: rest) ui = onAnalyzeClick [ev] ui.
Proof.
  unfold onAnalyzeClick.
  destruct (analyze_begin ui) as [ui1 [file |]]; [| reflexivity].
  rewrite !run_fetch_first. reflexivity.
Qed.

(** Every attempt either stops at the validator or sends. *)
Lemma attempt_cases (events : list LoopEvent) (ui : UI) :
  (exists msg, validateFile (fileInput_file ui) = Some msg
               /\ onAnalyzeClick events ui
                  = {| page_after :=
                         setStatusText msg true
                           (setStatusText "" false (resetResult ui));
                       exit := ExitInvalid; page_at_send := None; call := None |})
  \/ (exists f, fileInput_file ui = Some f /\ validateFile (Some f) = None
                /\ page_at_send (onAnalyzeClick events ui) = Some (page_sent ui f)
                /\ call (onAnalyzeClick events ui)
                   = Some (run_fetch events
                             (fetchWithTimeout API_URL (analyze_options f)))
                /\ match settlements
                           (run_fetch events
                              (fetchWithTimeout API_URL (analyze_options f))) with
                   | [] =>
                       page_after (onAnalyzeClick events ui) = page_sent ui f
                       /\ exit (onAnalyzeClick events ui) = ExitPending
                   | outcome :: _ =>
                       page_after (onAnalyzeClick events ui)
                       = fst (analyze_settle outcome (page_sent ui f))
                       /\ exit (onAnalyzeClick events ui)
                          = snd (analyze_settle outcome (page_sent ui f))
                   end).
Proof.
  destruct (validateFile (fileInput_file ui)) as [msg |] eqn:Hv.
  - left. exists msg. split; [reflexivity |].
    apply onAnalyzeClick_invalid. exact Hv.
  - right. destruct (validateFile_none_selected _ Hv) as [f Hf].
    exists f. rewrite Hf in Hv. split; [exact Hf |]. split; [exact Hv |].
    exact (onAnalyzeClick_valid events ui f Hf Hv).
Qed.





(** ** No state carried from one attempt to the next *)

Lemma page_sent_display (ui1 ui2 : UI) (f : File) :
  display (page_sent ui1 f) = display (page_sent ui2 f).
Proof.
  unfold page_sent, analyze_send.
  destruct (greenRatioHeuristic f <? GREEN_RATIO_THRESHOLD)%float; reflexivity.
Qed.

Lemma analyze_settle_display (outcome : Settled Response) (ui1 ui2 : UI) :
  display ui1 = display ui2 ->
  display (fst (analyze_settle outcome ui1)) = display (fst (analyze_settle outcome ui2))
  /\ snd (analyze_settle outcome ui1) = snd (analyze_settle outcome ui2).
Proof.
  intros H. destruct ui1, ui2. unfold display in H. simpl in H.
  inversion H; subst.
  unfold analyze_settle, interpret, display_result, on_failure,
    report_server_error, setStatus, resp_text.
  destruct outcome as [resp | e]; simpl;
    repeat (break_inner; simpl); split; reflexivity.
Qed.

Lemma attempt_independent_of_display (events : list LoopEvent) (ui1 ui2 : UI) :
  fileInput_file ui1 = fileInput_file ui2 ->
  exit (onAnalyzeClick events ui1) = exit (onAnalyzeClick events ui2)
  /\ display (page_after (onAnalyzeClick events ui1))
     = display (page_after (onAnalyzeClick events ui2))
  /\ call (onAnalyzeClick events ui1) = call (onAnalyzeClick events ui2).
Proof.
  intros Hsame.
  destruct (attempt_cases events ui1)
    as [(msg & Hv1 & E1) | (f & Hf1 & Hv1 & _ & Hc1 & Hout1)].
  - rewrite Hsame in Hv1.
    rewrite E1, (onAnalyzeClick_invalid events ui2 msg Hv1).
    repeat split.
  - rewrite Hsame in Hf1.
    destruct (onAnalyzeClick_valid events ui2 f Hf1 Hv1) as (_ & Hc2 & Hout2).
    rewrite Hc1, Hc2.
    destruct (settlements (run_fetch events _)) as [| outcome more].
    + destruct Hout1 as [-> ->], Hout2 as [-> ->].
      repeat split. apply page_sent_display.
    + destruct Hout1 as [-> ->], Hout2 as [-> ->].
      destruct (analyze_settle_display outcome _ _ (page_sent_display ui1 ui2 f))
        as [Hd Hx].
      repeat split; assumption.
Qed.

(** X9: what an attempt shows and how it ends depend only on the selected
    file and on what the event loop delivers: two pages with the same
    selection end the attempt with the same exit, the same status line,
    result panel and explanation, and the same call, whatever status,
    result or explanation they showed before. *)
Theorem X9_attempt_shows_nothing_stale (events : list LoopEvent) (ui1 ui2 : UI) :
  fileInput_file ui1 = fileInput_file ui2 ->
  let a1 := onAnalyzeClick events ui1 in
  let a2 := onAnalyzeClick events ui2 in
  exit a1 = exit a2
  /\ display (page_after a1) = display (page_after a2)
  /\ call a1 = call a2.
Proof.
  intros Hsame a1 a2. exact (attempt_independent_of_display events ui1 ui2 Hsame).
Qed.

Lemma X9_stale_page_witness :
  let shown := page_after (onAnalyzeClick [reply 200 body_below_threshold]
                             (page_with leaf_file)) in
  let events := [reply 500 body_model_unavailable] in
  fileInput_file shown = fileInput_file (page_with leaf_file)
  /\ display shown <> display (page_with leaf_file)
  /\ display (page_after (onAnalyzeClick events shown))
     = display (page_after (onAnalyzeClick events (page_with leaf_file))).
Proof.
  intros shown events.
  assert (Hsame : fileInput_file shown = fileInput_file (page_with leaf_file))
    by (vm_compute; reflexivity).
  split; [exact Hsame |]. split.
  - vm_compute. discriminate.
  - apply (X9_attempt_shows_nothing_stale events shown (page_with leaf_file) Hsame).
Defined.



(** ** The heuristic *)

Lemma green_loop_rgb (ps qs : list Pixel) (gSum total : float) :
  map rgb ps = map rgb qs ->
  green_loop (buffer_of ps) gSum total = green_loop (buffer_of qs) gSum total.
Proof.
  revert qs gSum total.
  induction ps as [| p ps IH]; intros [| q qs] gSum total H;
    try discriminate; [reflexivity |].
  destruct p as [r g b a], q as [r' g' b' a'].
  simpl in H. unfold rgb in H at 1 2. simpl in H.
  inversion H; subst. simpl. apply IH. assumption.
Qed.

(** X11: the ratio reads the red, green and blue bytes only: two buffers
    whose pixels agree on the three colour channels have the same ratio,
    whatever their alpha bytes. *)
Theorem X11_ratio_ignores_alpha (ps qs : list Pixel) :
  map rgb ps = map rgb qs ->
  green_ratio (buffer_of ps) = green_ratio (buffer_of qs).
Proof.
  intros H. unfold green_ratio.
  rewrite (green_loop_rgb ps qs _ _ H). reflexivity.
Qed.

Lemma X11_transparent_green_witness :
  let clear_green := repeat (mkPixel Byte.x00 Byte.xff Byte.x00 Byte.x00) (64 * 64) in
  map rgb clear_green = map rgb green_pixels
  /\ buffer_of clear_green <> buffer_of green_pixels
  /\ green_ratio (buffer_of clear_green) = green_ratio (buffer_of green_pixels).
Proof.
  intros clear_green.
  assert (H : map rgb clear_green = map rgb green_pixels) by (vm_compute; reflexivity).
  split; [exact H |]. split.
  - vm_compute. discriminate.
  - apply (X11_ratio_ignores_alpha clear_green green_pixels H).
Defined.



(** ** The preview block and the selection *)

Lemma analyze_settle_preview (outcome : Settled Response) (ui : UI) :
  preview_block (fst (analyze_settle outcome ui)) = preview_block ui.
Proof.
  unfold analyze_settle, interpret, display_result, on_failure,
    report_server_error, setStatus, resp_text.
  destruct outcome as [resp | e]; simpl;
    repeat (break_inner; simpl); reflexivity.
Qed.

Lemma page_sent_preview (ui : UI) (f : File) :
  preview_block (page_sent ui f) = preview_block ui.
Proof.
  unfold page_sent, analyze_send.
  destruct (greenRatioHeuristic f <? GREEN_RATIO_THRESHOLD)%float; reflexivity.
Qed.

(** The analyze handler never writes the preview block. *)
Lemma onAnalyzeClick_preview (events : list LoopEvent) (ui : UI) :
  preview_block (page_after (onAnalyzeClick events ui)) = preview_block ui.
Proof.
  destruct (attempt_cases events ui) as [(msg & _ & ->) | (f & _ & _ & _ & _ & Hout)].
  - reflexivity.
  - destruct (settlements (run_fetch events _)) as [| outcome more].
    + destruct Hout as [-> _]. apply page_sent_preview.
    + destruct Hout as [-> _]. rewrite analyze_settle_preview.
      apply page_sent_preview.
Qed.

(** A file that can be previewed: it passes the validator, decodes, and is
    at least 64 pixels wide and high. *)
Lemma accepted_file_is_sound (ui : UI) :
  snd (onFileChange ui) = SelectionAccepted ->
  exists f img,
    fileInput_file ui = Some f /\ validateFile (Some f) = None
    /\ decoded f = Some img
    /\ (64 <= naturalWidth img)%N /\ (64 <= naturalHeight img)%N
    /\ fst (onFileChange ui)
       = showPreview f (setStatusText "" false (resetResult ui)).
Proof.
  intros Hs. pose proof (onFileChange_cases ui) as C. cbv zeta in C.
  destruct (validateFile (fileInput_file ui)) as [msg |] eqn:Hv.
  - rewrite C in Hs. discriminate.
  - destruct (fileInput_file ui) as [f |] eqn:Hf; [| contradiction].
    destruct (decoded f) as [img |] eqn:Hd.
    + destruct ((naturalWidth img <? MIN_DIM) || (naturalHeight img <? MIN_DIM))%N
        eqn:Hdim; rewrite C in *; [discriminate |].
      apply min_dim_test in Hdim. exists f, img. tauto.
    + rewrite C in Hs. discriminate.
Qed.

Lemma rejected_file_frame (ui : UI) :
  snd (onFileChange ui) <> SelectionAccepted ->
  fileInput_file (fst (onFileChange ui)) = None
  /\ preview_block (fst (onFileChange ui)) = preview_block ui.
Proof.
  intros Hs. pose proof (onFileChange_cases ui) as C. cbv zeta in C.
  destruct (validateFile (fileInput_file ui)) as [msg |].
  - rewrite C. split; reflexivity.
  - destruct (fileInput_file ui) as [f |]; [| contradiction].
    destruct (decoded f) as [img |].
    + destruct ((naturalWidth img <? MIN_DIM) || (naturalHeight img <? MIN_DIM))%N;
        rewrite C in *; [| contradiction].
      split; reflexivity.
    + rewrite C. split; reflexivity.
Qed.

Lemma selection_accepted_dec (s : Selection) :
  s = SelectionAccepted \/ s <> SelectionAccepted.
Proof. destruct s; [left; reflexivity | right | right | right]; discriminate. Qed.




(** ** The analyze buttons *)

Lemma step_buttons_sound (ev : UserEvent) (p : Pipeline) :
  buttons_sound (page p) -> buttons_sound (page (step ev p)).
Proof.
  intros Inv. destruct ev as [picked | events]; unfold step.
  - destruct (selection_accepted_dec (snd (onFileChange (setFile picked (page p)))))
      as [Hacc | Hrej].
    + destruct (accepted_file_is_sound _ Hacc)
        as (f & img & Hf & Hv & Hd & Hw & Hh & Hpage).
      destruct (onFileChange (setFile picked (page p))) as [ui s].
      cbn [fst snd page] in *. subst ui.
      split; [reflexivity |]. intros _.
      split; [reflexivity |]. split; [reflexivity |].
      exists f, img. repeat split; assumption.
    + destruct (rejected_file_frame _ Hrej) as [_ Hprev].
      destruct (onFileChange (setFile picked (page p))) as [ui s].
      cbn [fst snd page] in *.
      unfold preview_block in Hprev. inversion Hprev as [[H1 H2 H3 H4 H5]].
      unfold buttons_sound. rewrite H1, H2, H3, H4, H5. exact Inv.
  - cbn [page].
    pose proof (onAnalyzeClick_preview events (page p)) as Hp.
    unfold preview_block in Hp. inversion Hp as [[H1 H2 H3 H4 H5]].
    unfold buttons_sound. rewrite H1, H2, H3, H4, H5. exact Inv.
Qed.

Lemma step_keeps_buttons_enabled (ev : UserEvent) (p : Pipeline) :
  analyzeBtn_disabled (page p) = false ->
  analyzeBtn_disabled (page (step ev p)) = false.
Proof.
  intros Hen. destruct ev as [picked | events]; unfold step.
  - destruct (selection_accepted_dec (snd (onFileChange (setFile picked (page p)))))
      as [Hacc | Hrej].
    + destruct (accepted_file_is_sound _ Hacc) as (f & img & _ & _ & _ & _ & _ & Hpage).
      destruct (onFileChange (setFile picked (page p))) as [ui s].
      cbn [fst snd page] in *. subst ui. reflexivity.
    + destruct (rejected_file_frame _ Hrej) as [_ Hprev].
      destruct (onFileChange (setFile picked (page p))) as [ui s].
      cbn [fst snd page] in *.
      unfold preview_block in Hprev. inversion Hprev as [[H1 H2 H3 H4 H5]].
      rewrite H3. exact Hen.
  - cbn [page].
    pose proof (onAnalyzeClick_preview events (page p)) as Hp.
    unfold preview_block in Hp. inversion Hp as [[H1 H2 H3 H4 H5]].
    rewrite H3. exact Hen.
Qed.

(** X14: from the moment [DOMContentLoaded] has disabled them, the two
    analyze buttons are always in the same state; they are enabled only
    once a file has been accepted, and then a validated, decodable image of
    at least 64x64 is on preview; and no handler ever disables them again,
    not even a later rejected pick that empties the file input. *)
Theorem X14_analyze_buttons
  (ui0 : UI) (s0 : PipelineState) (evs : list UserEvent) :
  let p := run evs {| page := onDOMContentLoaded ui0; state := s0 |} in
  analyzeBtn_disabled (page p) = analyzeBtn2_disabled (page p)
  /\ (analyzeBtn_disabled (page p) = false ->
      previewRow_hidden (page p) = false
      /\ initialActions_hidden (page p) = true
      /\ exists f img,
           previewImg_src (page p) = Some f /\ validateFile (Some f) = None
           /\ decoded f = Some img
           /\ (64 <= naturalWidth img)%N /\ (64 <= naturalHeight img)%N)
  /\ (forall ev, analyzeBtn_disabled (page p) = false ->
        analyzeBtn_disabled (page (step ev p)) = false).
Proof.
  intros p. subst p.
  assert (Inv : buttons_sound
                  (page (run evs {| page := onDOMContentLoaded ui0; state := s0 |}))).
  { induction evs as [| ev evs IH] using rev_ind.
    - split; [reflexivity | discriminate].
    - rewrite run_snoc. apply step_buttons_sound. exact IH. }
  destruct Inv as [Hsame Hen].
  split; [exact Hsame |]. split; [exact Hen |].
  intros ev. apply step_keeps_buttons_enabled.
Qed.

(** X15: in a reachable state the validator can stop an analyze attempt
    only for a missing file: the attempt then shows "No file selected." in
    the error colour, sends nothing, and leaves the file input empty. *)
Theorem X15_only_a_missing_file_stops_an_attempt
  (p : Pipeline) (events : list LoopEvent) :
  reachable p ->
  exit (onAnalyzeClick events (page p)) = ExitInvalid ->
  fileInput_file (page p) = None
  /\ statusEl_text (page_after (onAnalyzeClick events (page p))) = Text MSG_NO_FILE
  /\ statusEl_color (page_after (onAnalyzeClick events (page p))) = COLOR_ERROR
  /\ call (onAnalyzeClick events (page p)) = None.
Proof.
  intros Hreach Hx.
  pose proof (reachable_selection_valid p Hreach) as Inv.
  destruct (attempt_cases events (page p))
    as [(msg & Hv & E) | (f & Hf & Hv & _ & _ & Hout)].
  - destruct (fileInput_file (page p)) as [f |] eqn:Hf.
    + rewrite (Inv f eq_refl) in Hv. discriminate.
    + simpl in Hv. inversion Hv; subst msg. rewrite E.
      repeat split.
  - exfalso. apply (proj1 (onAnalyzeClick_exit_invalid events (page p)) Hx).
    rewrite Hf. exact Hv.
Qed.

Lemma X15_click_after_rejected_pick_witness :
  let p := run [FileSelected (Some leaf_file); FileSelected (Some broken_file)] loaded in
  let a := onAnalyzeClick [reply 200 body_healthy] (page p) in
  reachable p
  /\ exit a = ExitInvalid
  /\ analyzeBtn_disabled (page p) = false
  /\ statusEl_text (page_after a) = Text MSG_NO_FILE
  /\ call a = None.
Proof.
  intros p a.
  assert (Hreach : reachable p).
  { exists loaded, [FileSelected (Some leaf_file); FileSelected (Some broken_file)].
    split; [repeat split | reflexivity]. }
  assert (Hx : exit a = ExitInvalid) by (vm_compute; reflexivity).
  destruct (X15_only_a_missing_file_stops_an_attempt p [reply 200 body_healthy]
              Hreach Hx) as (_ & Ht & _ & Hc).
  split; [exact Hreach |]. split; [exact Hx |].
  split; [vm_compute; reflexivity |]. split; assumption.
Defined.

(** ** Transport failures and the explanation panel *)






(* ================================================================= *)
(** * Part IV: the handlers under the event loop *)
(* ================================================================= *)

(** The [change] handler is its two stages, one after the other. *)
Lemma onFileChange_staged (ui : UI) :
  onFileChange ui
  = match change_begin ui with
    | (ui1, Some f) => change_resume f ui1
    | (ui1, None) => (ui1, SelectionInvalid)
    end.
Proof.
  unfold onFileChange, change_begin, change_resume.
  destruct (validateFile
              (fileInput_file (setStatusText "" false (resetResult ui))));
    [reflexivity |].
  destruct (fileInput_file (setStatusText "" false (resetResult ui)));
    reflexivity.
Qed.

Lemma change_begin_result_hidden (ui : UI) :
  resultEl_hidden (fst (change_begin ui)) = true.
Proof. unfold change_begin. repeat break_match; reflexivity. Qed.

Lemma change_resume_result (f : File) (ui : UI) :
  resultEl_hidden (fst (change_resume f ui)) = resultEl_hidden ui.
Proof. unfold change_resume. repeat break_match; reflexivity. Qed.

Lemma analyze_begin_result_hidden (ui : UI) :
  resultEl_hidden (fst (analyze_begin ui)) = true.
Proof. unfold analyze_begin. repeat break_match; reflexivity. Qed.

Lemma analyze_send_result (ratio : float) (ui : UI) :
  resultEl_hidden (analyze_send ratio ui) = resultEl_hidden ui.
Proof.
  unfold analyze_send.
  destruct (ratio <? GREEN_RATIO_THRESHOLD)%float; reflexivity.
Qed.

Lemma nth_error_single (t : Task) (n : nat) :
  nth_error [t] n = match n with O => Some t | S _ => None end.
Proof. destruct n as [| [| n]]; reflexivity. Qed.

Lemma nth_error_none (n : nat) : nth_error (@nil Task) n = None.
Proof. destruct n; reflexivity. Qed.

Lemma act_one_at_a_time (a : Action) (w : World) :
  one_at_a_time w ->
  match a, w_tasks w with
  | (Pick _ | Click), _ :: _ => False
  | _, _ => True
  end ->
  one_at_a_time (act a w).
Proof.
  intros (Hshape & Hbusy & Hready) Hexcl.
  destruct a as [picked | | n | n ev].
  - destruct (w_tasks w) as [| t ts] eqn:Ht; [| contradiction].
    unfold act. rewrite Ht.
    pose proof (change_begin_result_hidden (setFile picked (w_page w))) as Hh.
    destruct (change_begin (setFile picked (w_page w))) as [ui [f |]];
      cbn [fst] in Hh; unfold one_at_a_time; cbn [w_page w_state w_tasks app];
      rewrite Hh; repeat split; eauto; try discriminate; congruence.
  - destruct (w_tasks w) as [| t ts] eqn:Ht; [| contradiction].
    unfold act. rewrite Ht.
    pose proof (analyze_begin_result_hidden (w_page w)) as Hh.
    destruct (analyze_begin (w_page w)) as [ui [f |]];
      cbn [fst] in Hh; unfold one_at_a_time; cbn [w_page w_state w_tasks app];
      rewrite Hh; repeat split; eauto; try discriminate; congruence.
  - unfold act. destruct Hshape as [Ht | [t Ht]]; rewrite Ht.
    + rewrite nth_error_none. unfold one_at_a_time. rewrite Ht.
      repeat split; auto; congruence.
    + rewrite nth_error_single.
      assert (Hh : resultEl_hidden (w_page w) = true)
        by (apply Hbusy; rewrite Ht; discriminate).
      destruct n as [| n].
      2:{ unfold one_at_a_time. rewrite Ht. repeat split; eauto. }
      destruct t as [f | f | c | resp].
      * pose proof (change_resume_result f (w_page w)) as Hr.
        destruct (change_resume f (w_page w)) as [ui s]. cbn [fst] in Hr.
        unfold one_at_a_time; cbn [w_page w_state w_tasks replace_task firstn skipn app]. rewrite Hr, Hh.
        repeat split; auto; try congruence; discriminate.
      * unfold one_at_a_time; cbn [w_page w_state w_tasks replace_task firstn skipn app]. rewrite analyze_send_result, Hh.
        repeat split; eauto; discriminate.
      * unfold one_at_a_time. rewrite Ht. repeat split; eauto.
      * pose proof (analyze_settle_result (Resolved resp) (w_page w) Hh) as Hr.
        destruct (analyze_settle (Resolved resp) (w_page w)) as [ui x].
        cbn [fst snd] in Hr.
        unfold one_at_a_time; cbn [w_page w_state w_tasks replace_task firstn skipn app]. repeat split; auto; try congruence.
        intros Hv. destruct (Hr Hv) as [t ->]. reflexivity.
  - unfold act. destruct Hshape as [Ht | [t Ht]]; rewrite Ht.
    + rewrite nth_error_none. unfold one_at_a_time. rewrite Ht.
      repeat split; auto; congruence.
    + rewrite nth_error_single.
      assert (Hh : resultEl_hidden (w_page w) = true)
        by (apply Hbusy; rewrite Ht; discriminate).
      destruct n as [| n].
      2:{ unfold one_at_a_time. rewrite Ht. repeat split; eauto. }
      destruct t as [f | f | c | resp];
        try (unfold one_at_a_time; rewrite Ht; repeat split; eauto; fail).
      destruct (settlements (deliver ev c)) as [| [resp | e] more].
      * unfold one_at_a_time; cbn [w_page w_state w_tasks replace_task firstn skipn app]. rewrite Hh.
        repeat split; eauto; discriminate.
      * unfold one_at_a_time; cbn [w_page w_state w_tasks replace_task firstn skipn app]. rewrite Hh.
        repeat split; eauto; discriminate.
      * pose proof (analyze_settle_result (Rejected e) (w_page w) Hh) as Hr.
        destruct (analyze_settle (Rejected e) (w_page w)) as [ui x].
        cbn [fst snd] in Hr.
        unfold one_at_a_time; cbn [w_page w_state w_tasks replace_task firstn skipn app]. repeat split; auto; try congruence.
        intros Hv. destruct (Hr Hv) as [t ->]. reflexivity.
Qed.

Lemma run_world_cons (a : Action) (acts : list Action) (w : World) :
  run_world (a :: acts) w = run_world acts (act a w).
Proof. reflexivity. Qed.

Lemma run_one_at_a_time (acts : list Action) (w : World) :
  one_at_a_time w -> exclusive acts w = true -> one_at_a_time (run_world acts w).
Proof.
  revert w. induction acts as [| a acts IH]; intros w Inv Hex; [exact Inv |].
  rewrite run_world_cons. simpl in Hex.
  apply IH.
  - apply act_one_at_a_time; [exact Inv |].
    destruct a; destruct (w_tasks w); try exact I; discriminate.
  - destruct a; destruct (w_tasks w); try exact Hex; discriminate.
Qed.

(** C8, as stated, fails.  Pick a leaf, click analyze, and pick another
    file while the request is pending; the reply arrives while the second
    pick is still decoding and is displayed; the decode then ends and the
    pick is accepted.  The pipeline is Previewed with a result on display. *)
Lemma C8_late_reply_after_a_new_pick :
  let acts := [Pick (Some leaf_file); Settle 0; Click; Settle 0;
               Pick (Some dark_file); Deliver 0 (reply 200 body_healthy);
               Settle 0; Settle 0] in
  let w := run_world acts loaded_world in
  w_tasks w = []
  /\ w_state w = Previewed
  /\ previewImg_src (w_page w) = Some dark_file
  /\ analysis_result (w_page w) = Some (Text "Healthy", PercentFixed1 92%float)
  /\ w_state w <> ResultReady.
Proof.
  repeat split; try (vm_compute; reflexivity). vm_compute. discriminate.
Qed.

(** C8, amended: as long as handlers run one at a time, that is, the user
    picks and clicks only while no handler is suspended, a result is on
    display only when the state is ResultReady and no handler is under way;
    in particular every analyze attempt clears the previous result at its
    start and none is on display while the attempt checks the image, waits
    for the reply or reads its body. *)
Theorem C8_result_only_when_ready (w0 : World) (acts : list Action) :
  just_loaded w0 ->
  exclusive acts w0 = true ->
  let w := run_world acts w0 in
  (forall r, analysis_result (w_page w) = Some r ->
     w_state w = ResultReady /\ w_tasks w = [])
  /\ (w_tasks w <> [] -> analysis_result (w_page w) = None)
  /\ analysis_result (fst (analyze_begin (w_page w))) = None.
Proof.
  intros (Hs & _ & Hh & Ht) Hex w.
  assert (Inv0 : one_at_a_time w0).
  { unfold one_at_a_time. rewrite Ht, Hh.
    repeat split; auto; try congruence; try discriminate. }
  destruct (run_one_at_a_time acts w0 Inv0 Hex) as (Hshape & Hbusy & Hready).
  fold w in Hshape, Hbusy, Hready.
  unfold analysis_result. split; [| split].
  - intros r Hr.
    destruct (resultEl_hidden (w_page w)) eqn:Hv; [discriminate |].
    split; [apply Hready; reflexivity |].
    destruct (w_tasks w) as [| t ts] eqn:E; [reflexivity |].
    assert (Hb : false = true) by (apply Hbusy; discriminate).
    discriminate Hb.
  - intros Hb. rewrite (Hbusy Hb). reflexivity.
  - rewrite analyze_begin_result_hidden. reflexivity.
Qed.

Lemma C8_result_ready_witness :
  let acts := [Pick (Some leaf_file); Settle 0; Click; Settle 0;
               Deliver 0 (reply 200 body_healthy); Settle 0] in
  let w := run_world acts loaded_world in
  just_loaded loaded_world
  /\ exclusive acts loaded_world = true
  /\ analysis_result (w_page w) = Some (Text "Healthy", PercentFixed1 92%float)
  /\ w_state w = ResultReady
  /\ w_tasks w = [].
Proof.
  intros acts w.
  assert (Hl : just_loaded loaded_world) by (repeat split).
  assert (Hex : exclusive acts loaded_world = true) by (vm_compute; reflexivity).
  assert (Hres : analysis_result (w_page w)
                 = Some (Text "Healthy", PercentFixed1 92%float))
    by (vm_compute; reflexivity).
  destruct (C8_result_only_when_ready loaded_world acts Hl Hex) as [Hready _].
  split; [exact Hl |]. split; [exact Hex |]. split; [exact Hres |].
  exact (Hready _ Hres).
Defined.

(** ** One handler at a time is [step] *)

Lemma deliveries_ignored (events : list LoopEvent) (w : World) :
  match w_tasks w with
  | [] | [ReadingBody _] => True
  | _ => False
  end ->
  run_world (map (Deliver 0) events) w = w.
Proof.
  intros Hq. induction events as [| ev events IH]; [reflexivity |].
  simpl map. rewrite run_world_cons.
  assert (Hsame : act (Deliver 0 ev) w = w).
  { unfold act. destruct (w_tasks w) as [| [f | f | c | resp] [| t ts]];
      try contradiction; reflexivity. }
  rewrite Hsame. exact IH.
Qed.

Lemma run_world_app (xs ys : list Action) (w : World) :
  run_world (xs ++ ys)%list w = run_world ys (run_world xs w).
Proof. unfold run_world. apply fold_left_app. Qed.

Lemma act_pick_quiet (picked : option File) (w : World) :
  w_tasks w = [] ->
  act (Pick picked) w
  = match change_begin (setFile picked (w_page w)) with
    | (ui, None) => {| w_page := ui; w_state := Idle; w_tasks := [] |}
    | (ui, Some f) =>
        {| w_page := ui; w_state := w_state w; w_tasks := [DecodingPick f] |}
    end.
Proof.
  intros Ht. unfold act. rewrite Ht.
  destruct (change_begin (setFile picked (w_page w))) as [ui [f |]]; reflexivity.
Qed.

Lemma act_click_quiet (w : World) :
  w_tasks w = [] ->
  act Click w
  = match analyze_begin (w_page w) with
    | (ui, None) => {| w_page := ui; w_state := Idle; w_tasks := [] |}
    | (ui, Some f) =>
        {| w_page := ui; w_state := Checking; w_tasks := [CheckingImage f] |}
    end.
Proof.
  intros Ht. unfold act. rewrite Ht.
  destruct (analyze_begin (w_page w)) as [ui [f |]]; reflexivity.
Qed.

(** The deliveries to a call that has just been started: the first one
    settles it, the rest find no call to reach. *)
Lemma deliveries_to_a_fresh_call (events : list LoopEvent) (ui : UI)
  (st : PipelineState) (resource : string) (o : Options) :
  run_world (map (Deliver 0) events)
    {| w_page := ui; w_state := st;
       w_tasks := [AwaitingReply (fetchWithTimeout resource o)] |}
  = match settlements (run_fetch events (fetchWithTimeout resource o)) with
    | [] =>
        {| w_page := ui; w_state := st;
           w_tasks := [AwaitingReply (fetchWithTimeout resource o)] |}
    | Resolved resp :: _ =>
        {| w_page := ui; w_state := st; w_tasks := [ReadingBody resp] |}
    | Rejected e :: _ =>
        {| w_page := fst (analyze_settle (Rejected e) ui);
           w_state := state_after_attempt (snd (analyze_settle (Rejected e) ui));
           w_tasks := [] |}
    end.
Proof.
  destruct events as [| ev rest]; [reflexivity |].
  simpl map. rewrite run_world_cons, run_fetch_first.
  assert (Hfirst :
            act (Deliver 0 ev)
              {| w_page := ui; w_state := st;
                 w_tasks := [AwaitingReply (fetchWithTimeout resource o)] |}
            = match settlements (deliver ev (fetchWithTimeout resource o)) with
              | [] =>
                  {| w_page := ui; w_state := st;
                     w_tasks := [AwaitingReply (fetchWithTimeout resource o)] |}
              | Resolved resp :: _ =>
                  {| w_page := ui; w_state := st; w_tasks := [ReadingBody resp] |}
              | Rejected e :: _ =>
                  {| w_page := fst (analyze_settle (Rejected e) ui);
                     w_state :=
                       state_after_attempt (snd (analyze_settle (Rejected e) ui));
                     w_tasks := [] |}
              end).
  { destruct ev; unfold act;
      cbn [w_tasks w_page w_state nth_error deliver fetchWithTimeout timer
           in_flight settlements app replace_task firstn skipn];
      try reflexivity;
      match goal with
      | |- context [analyze_settle ?x ?y] => destruct (analyze_settle x y)
      end; reflexivity. }
  rewrite Hfirst.
  destruct ev; cbn [deliver fetchWithTimeout timer in_flight settlements app];
    apply deliveries_ignored; exact I.
Qed.

(** Run from its start to its end with nothing in between, a handler leaves
    the page and the state that [step] computes. *)
Lemma handler_turns_are_step (ev : UserEvent) (w : World) :
  w_tasks w = [] ->
  let w' := run_world (handler_turns ev) w in
  let p' := step ev {| page := w_page w; state := w_state w |} in
  w_page w' = page p' /\ w_state w' = state p'.
Proof.
  intros Ht w' p'. subst w' p'. destruct ev as [picked | events].
  - unfold handler_turns, step. cbn [page state].
    rewrite onFileChange_staged.
    change (run_world [Pick picked; Settle 0] w)
      with (act (Settle 0) (act (Pick picked) w)).
    rewrite (act_pick_quiet picked w Ht).
    destruct (change_begin (setFile picked (w_page w))) as [ui [f |]].
    + unfold act. cbn [w_tasks w_page w_state nth_error].
      destruct (change_resume f ui) as [ui' s]. split; reflexivity.
    + split; reflexivity.
  - unfold handler_turns, step. cbn [page state].
    rewrite !run_world_app.
    change (run_world [Click; Settle 0] w) with (act (Settle 0) (act Click w)).
    change (run_world [Settle 0]
              (run_world (map (Deliver 0) events) (act (Settle 0) (act Click w))))
      with (act (Settle 0)
              (run_world (map (Deliver 0) events) (act (Settle 0) (act Click w)))).
    rewrite (act_click_quiet w Ht).
    unfold onAnalyzeClick.
    destruct (analyze_begin (w_page w)) as [ui1 [f |]].
    + change (act (Settle 0)
                {| w_page := ui1; w_state := Checking;
                   w_tasks := [CheckingImage f] |})
        with {| w_page := analyze_send (greenRatioHeuristic f) ui1;
                w_state := Sending;
                w_tasks := [AwaitingReply
                              (fetchWithTimeout API_URL (analyze_options f))] |}.
      rewrite deliveries_to_a_fresh_call.
      destruct (settlements
                  (run_fetch events (fetchWithTimeout API_URL (analyze_options f))))
        as [| [resp | e] more].
      * split; reflexivity.
      * unfold act. cbn [w_tasks w_page w_state nth_error].
        destruct (analyze_settle (Resolved resp)
                    (analyze_send (greenRatioHeuristic f) ui1)) as [ui3 x].
        split; reflexivity.
      * unfold act. cbn [w_tasks w_page w_state nth_error].
        destruct (analyze_settle (Rejected e)
                    (analyze_send (greenRatioHeuristic f) ui1)) as [ui3 x].
        split; reflexivity.
    + change (act (Settle 0) {| w_page := ui1; w_state := Idle; w_tasks := [] |})
        with {| w_page := ui1; w_state := Idle; w_tasks := [] |}.
      rewrite deliveries_ignored by exact I.
      split; reflexivity.
Qed.
